(** * Youtube_transcript: the URL resolver, the acquirer, the transcriber and
      the orchestrator of [app.py], embedded in Rocq.

    Conventions of the embedding.

    - A Python [str] that is (part of) the URL typed by the user is a
      [str]: a list of characters whose code points are below 256 (Rocq's
      [ascii]).  Text that other components produce (percent-decoded
      query values, file names, messages, transcriptions) is a [ustr]: a
      list of arbitrary code points.
    - A Python call either returns a value or raises: [result].
    - [urllib.parse], [re], [os.path] and [ipaddress] are modelled after
      CPython 3.11 (with the URL hardening of 3.11.4), as far as
      [extract_video_id] and [main] reach into them. *)

From Stdlib Require Import List String Ascii NArith Bool Arith.
Import ListNotations.

Set Implicit Arguments.

(* ================================================================== *)
(** * Python values *)
(* ================================================================== *)

Definition str := list ascii.
Definition ustr := list N.

Definition chars (s : string) : str := list_ascii_of_string s.
Definition code (c : ascii) : N := N_of_ascii c.
Definition py (s : str) : ustr := map code s.
Definition u (s : string) : ustr := py (chars s).

(** An instance of (a subclass of) Python's [Exception]: its class name
    and [str(e)].  The interpreter's exit signals (KeyboardInterrupt,
    SystemExit), which derive from BaseException only, are not raised by
    the libraries the program calls and are not values of this type. *)
Record exn := Exn { exn_class : string; exn_str : ustr }.

Inductive result (A : Type) :=
| Returned (a : A)
| Raised (e : exn).
Arguments Returned {A} a.
Arguments Raised {A} e.

Definition ValueError (msg : string) : exn := Exn "ValueError" (u msg).

(** Equality tests on characters, shared by the [str] and [ustr]
    operations. *)
Class Eqb (A : Type) := {
  eqb : A -> A -> bool;
  eqb_eq : forall x y, eqb x y = true <-> x = y
}.

#[export] Instance Eqb_ascii : Eqb ascii :=
  {| eqb := Ascii.eqb; eqb_eq := Ascii.eqb_eq |}.
#[export] Instance Eqb_N : Eqb N :=
  {| eqb := N.eqb; eqb_eq := N.eqb_eq |}.

(* ================================================================== *)
(** * The methods of [str] the program and its libraries use *)
(* ================================================================== *)

Module Str.
Section Ops.
Context {A : Type} `{Eqb A}.

(** [a == b] *)
Fixpoint equal (a b : list A) : bool :=
  match a, b with
  | [], [] => true
  | x :: a', y :: b' => eqb x y && equal a' b'
  | _, _ => false
  end.

(** [c in s], for a single character [c] *)
Definition has (c : A) (s : list A) : bool := existsb (eqb c) s.

(** [s.startswith(p)]; on success the rest of [s] after [p] *)
Fixpoint strip_prefix (p s : list A) : option (list A) :=
  match p, s with
  | [], _ => Some s
  | x :: p', y :: s' => if eqb x y then strip_prefix p' s' else None
  | _ :: _, [] => None
  end.

Definition startswith (s p : list A) : bool :=
  match strip_prefix p s with Some _ => true | None => false end.

(** [s.endswith(c)], for a single character [c] *)
Definition endswith (s : list A) (c : A) : bool :=
  match rev s with x :: _ => eqb x c | [] => false end.

(** [needle in s], the substring test *)
Fixpoint contains (needle s : list A) : bool :=
  startswith s needle ||
  match s with
  | [] => false
  | _ :: s' => contains needle s'
  end.

(** [s.partition(c)]: the text before the first [c] and, when there is
    one, the text after it. *)
Fixpoint partition (c : A) (s : list A) : list A * option (list A) :=
  match s with
  | [] => ([], None)
  | x :: s' =>
      if eqb x c then ([], Some s')
      else let '(b, a) := partition c s' in (x :: b, a)
  end.

(** [s.rpartition(c)[2]]: the text after the last [c], all of [s] when
    there is none. *)
Fixpoint after_last (c : A) (s : list A) : list A :=
  match s with
  | [] => []
  | x :: s' =>
      if has c s' then after_last c s'
      else if eqb x c then s' else s
  end.

(** [s.split(c)] *)
Fixpoint split (c : A) (s : list A) : list (list A) :=
  match s with
  | [] => [[]]
  | x :: s' =>
      if eqb x c then [] :: split c s'
      else match split c s' with
           | h :: t => (x :: h) :: t
           | [] => [[x]]
           end
  end.

(** [s.replace(c, "")] *)
Definition remove (c : A) (s : list A) : list A :=
  filter (fun x => negb (eqb x c)) s.

(** [s.replace(c, d)] *)
Definition replace (c d : A) (s : list A) : list A :=
  map (fun x => if eqb x c then d else x) s.

(** [s in l], for a list [l] of strings *)
Definition mem (s : list A) (l : list (list A)) : bool :=
  existsb (equal s) l.
End Ops.
End Str.

(* ================================================================== *)
(** * [re.match], for the regular expressions the program reaches *)
(* ================================================================== *)

Module Re.

(** Character sets: [.] (anything but a newline), [[^...]] and
    [[...]]. *)
Inductive cset :=
| Dot
| NoneOf (cs : str)
| OneOf (cs : str).

Definition in_cset (k : cset) (c : ascii) : bool :=
  match k with
  | Dot => negb (Ascii.eqb c "010"%char)
  | NoneOf cs => negb (Str.has c cs)
  | OneOf cs => Str.has c cs
  end.

(** The syntax the patterns are written in.  [Group] is the one named
    group, [(?P<id>...)]; [Eos] is [\Z]. *)
Inductive regex :=
| Lit (s : str)
| Seq (r1 r2 : regex)
| Opt (r : regex)            (* r?   greedy *)
| Plus (k : cset)            (* k+   greedy *)
| LazyStar (k : cset)        (* k*?  lazy   *)
| Group (r : regex)
| Eos.

(** A state of the matcher: the input not consumed yet and the text
    captured by the group, if it has been closed. *)
Definition mstate := (str * option str)%type.

(** [k*], greedy: the remainders after each number of repetitions, the
    longest run first. *)
Fixpoint star_greedy (k : cset) (s : str) : list str :=
  match s with
  | c :: s' => if in_cset k c then star_greedy k s' ++ [s] else [s]
  | [] => [s]
  end.

(** [k*?], lazy: the shortest run first. *)
Fixpoint star_lazy (k : cset) (s : str) : list str :=
  s :: match s with
       | c :: s' => if in_cset k c then star_lazy k s' else []
       | [] => []
       end.

Definition consumed (s rest : str) : str :=
  firstn (List.length s - List.length rest) s.

(** The backtracking matcher: every way [r] matches a prefix of the
    input, in the order Python's engine tries them. *)
Fixpoint run (r : regex) (st : mstate) : list mstate :=
  let '(s, g) := st in
  match r with
  | Lit l =>
      match Str.strip_prefix l s with
      | Some rest => [(rest, g)]
      | None => []
      end
  | Seq r1 r2 => flat_map (run r2) (run r1 st)
  | Opt r1 => run r1 st ++ [st]
  | Plus k =>
      match s with
      | c :: s' =>
          if in_cset k c then map (fun rest => (rest, g)) (star_greedy k s')
          else []
      | [] => []
      end
  | LazyStar k => map (fun rest => (rest, g)) (star_lazy k s)
  | Group r1 =>
      map (fun m : mstate => (fst m, Some (consumed s (fst m)))) (run r1 st)
  | Eos => match s with [] => [st] | _ :: _ => [] end
  end.

(** A match object, reduced to what the program reads from it:
    [match.group('id')]. *)
Record match_object := { group_id : str }.

(** [re.match(pattern, s)]: the first successful path, anchored at the
    start of [s]; [None] when there is none. *)
Definition re_match (pattern : regex) (s : str) : option match_object :=
  match run pattern (s, None) with
  | (_, g) :: _ => Some {| group_id := match g with Some t => t | None => [] end |}
  | [] => None
  end.

End Re.
Import Re.

(* ================================================================== *)
(** * [extract_video_id]: the list of patterns *)
(* ================================================================== *)

Fixpoint seq_of (rs : list regex) : regex :=
  match rs with
  | [] => Lit []
  | [r] => r
  | r :: rs' => Seq r (seq_of rs')
  end.

(** [(?:https?://)?(?:www\.)?] *)
Definition scheme_www : list regex :=
  [ Opt (seq_of [Lit (chars "http"); Opt (Lit (chars "s")); Lit (chars "://")]);
    Opt (Lit (chars "www.")) ].

(** [(?P<id>[^?&/]+)] *)
Definition id_group : regex := Group (Plus (NoneOf (chars "?&/"))).

Definition pattern_short : regex :=
  seq_of (scheme_www ++ [Lit (chars "youtu.be/"); id_group]).
Definition pattern_embed : regex :=
  seq_of (scheme_www ++ [Lit (chars "youtube.com/embed/"); id_group]).
Definition pattern_v : regex :=
  seq_of (scheme_www ++ [Lit (chars "youtube.com/v/"); id_group]).
Definition pattern_watch : regex :=
  seq_of (scheme_www ++ [Lit (chars "youtube.com/watch?v="); id_group]).
Definition pattern_watch_any_v : regex :=
  seq_of (scheme_www ++
          [Lit (chars "youtube.com/watch?"); LazyStar Dot; Lit (chars "&v=");
           id_group]).

Definition regex_patterns : list regex :=
  [pattern_short; pattern_embed; pattern_v; pattern_watch; pattern_watch_any_v].

(** The loop [for pattern in regex_patterns: ...]: the group of the first
    pattern that matches. *)
Fixpoint first_match (patterns : list regex) (url : str) : option str :=
  match patterns with
  | [] => None
  | pattern :: rest =>
      match re_match pattern url with
      | Some m => Some (group_id m)
      | None => first_match rest url
      end
  end.

(* ================================================================== *)
(** * [ipaddress]: which strings [ip_address] accepts *)
(* ================================================================== *)

Module Ipaddress.

Definition is_digit (c : ascii) : bool :=
  ((48 <=? code c) && (code c <=? 57))%N.

Definition _HEX_DIGITS : str := chars "0123456789ABCDEFabcdef".

(** The value of a string of decimal digits, [int(s, 10)]. *)
Definition int10 (s : str) : N :=
  fold_left (fun acc c => (acc * 10 + (code c - 48))%N) s 0%N.

(** [IPv4Address._parse_octet] returns (true) or raises (false). *)
Definition parse_octet_ok (octet_str : str) : bool :=
  match octet_str with
  | [] => false
  | c0 :: _ =>
      forallb is_digit octet_str
      && (List.length octet_str <=? 3)
      && (Str.equal octet_str (chars "0") || negb (Ascii.eqb c0 "0"))
      && (int10 octet_str <=? 255)%N
  end.

(** [IPv4Address(s)] returns (true) or raises AddressValueError. *)
Definition IPv4Address_ok (addr_str : str) : bool :=
  negb (Str.has "/"%char addr_str)
  && negb (Str.equal addr_str [])
  && (let octets := Str.split "."%char addr_str in
      (List.length octets =? 4) && forallb parse_octet_ok octets).

(** [IPv6Address._parse_hextet] returns or raises; [int('', 16)] raises
    on the empty string. *)
Definition parse_hextet_ok (hextet_str : str) : bool :=
  forallb (fun c => Str.has c _HEX_DIGITS) hextet_str
  && (List.length hextet_str <=? 4)
  && negb (Str.equal hextet_str []).

Definition is_empty (s : str) : bool := Str.equal s [].

(** The indices [1 .. len-2] of the empty parts: the places of a
    [::]. *)
Definition inner_empty (parts : list str) : list nat :=
  filter (fun i => is_empty (nth i parts (chars "x")))
         (seq 1 (List.length parts - 2)).

(** [IPv6Address._ip_int_from_string] returns or raises.  An IPv4-style
    suffix is replaced by the two hextets of its value; they are
    hextets whatever the value, so [0] stands for both. *)
Definition ip_int_from_string_ok (ip_str : str) : bool :=
  negb (is_empty ip_str) &&
  let parts0 := Str.split ":"%char ip_str in
  (3 <=? List.length parts0) &&
  let last0 := last parts0 [] in
  let v4_suffix := Str.has "."%char last0 in
  (negb v4_suffix || IPv4Address_ok last0) &&
  let parts :=
    if v4_suffix then removelast parts0 ++ [chars "0"; chars "0"]
    else parts0 in
  let n := List.length parts in
  (n <=? 9) &&
  match inner_empty parts with
  | _ :: _ :: _ => false
  | [skip_index] =>
      let parts_hi := if is_empty (hd [] parts) then skip_index - 1 else skip_index in
      let parts_lo :=
        if is_empty (last parts []) then n - skip_index - 1 - 1
        else n - skip_index - 1 in
      (negb (is_empty (hd [] parts)) || (parts_hi =? 0)) &&
      (negb (is_empty (last parts [])) || (parts_lo =? 0)) &&
      (parts_hi + parts_lo <=? 7) &&
      forallb parse_hextet_ok (firstn parts_hi parts) &&
      forallb parse_hextet_ok (skipn (n - parts_lo) parts)
  | [] =>
      (n =? 8) &&
      negb (is_empty (hd [] parts)) &&
      negb (is_empty (last parts [])) &&
      forallb parse_hextet_ok parts
  end.

(** [IPv6Address(s)] returns or raises: no [/], a well-formed scope
    id after [%], and an address that parses. *)
Definition IPv6Address_ok (addr_str : str) : bool :=
  negb (Str.has "/"%char addr_str) &&
  match Str.partition "%"%char addr_str with
  | (addr, None) => ip_int_from_string_ok addr
  | (addr, Some scope_id) =>
      negb (is_empty scope_id) && negb (Str.has "%"%char scope_id)
      && ip_int_from_string_ok addr
  end.

Inductive ip_kind := IPv4 | IPv6.

(** [ip_address(s)]: an IPv4Address, an IPv6Address, or ValueError. *)
Definition ip_address (address : str) : result ip_kind :=
  if IPv4Address_ok address then Returned IPv4
  else if IPv6Address_ok address then Returned IPv6
  else Raised (ValueError "does not appear to be an IPv4 or IPv6 address").

End Ipaddress.

(* ================================================================== *)
(** * [urllib.parse]: [urlparse], [hostname], [unquote], [parse_qs] *)
(* ================================================================== *)

Module Urllib.

(** [str.lower()] on code points below 256: the letters A-Z and the
    capital letters of Latin-1 (U+00C0-U+00DE but the sign U+00D7). *)
Definition lower_char (c : ascii) : ascii :=
  let n := code c in
  if ((65 <=? n) && (n <=? 90))%N then ascii_of_N (n + 32)
  else if ((192 <=? n) && (n <=? 222) && negb (n =? 215))%N
       then ascii_of_N (n + 32)
  else c.

Definition lower (s : str) : str := map lower_char s.

Definition is_ascii_alpha (c : ascii) : bool :=
  let n := code c in
  (((65 <=? n) && (n <=? 90)) || ((97 <=? n) && (n <=? 122)))%N.

Definition uses_params : list str :=
  map chars ["" ; "ftp"; "hdl"; "prospero"; "http"; "imap";
             "https"; "shttp"; "rtsp"; "rtspu"; "sip"; "sips";
             "mms"; "sftp"; "tel"]%string.

Definition scheme_chars : str :=
  chars "abcdefghijklmnopqrstuvwxyzABCDEFGHIJKLMNOPQRSTUVWXYZ0123456789+-.".

(** [url.lstrip(_WHATWG_C0_CONTROL_OR_SPACE)] *)
Fixpoint lstrip_c0 (url : str) : str :=
  match url with
  | c :: url' => if (code c <=? 32)%N then lstrip_c0 url' else url
  | [] => []
  end.

(** The loop over [_UNSAFE_URL_BYTES_TO_REMOVE]: tab, CR, LF. *)
Definition remove_unsafe (url : str) : str :=
  Str.remove "010"%char (Str.remove "013"%char (Str.remove "009"%char url)).

(** The scheme, when the text before the first [:] is one, and the rest
    of the URL. *)
Definition split_scheme (url : str) : str * str :=
  match Str.partition ":"%char url with
  | ((c0 :: _) as before, Some after) =>
      if is_ascii_alpha c0
         && forallb (fun c => Str.has c scheme_chars) before
      then (lower before, after)
      else ([], url)
  | _ => ([], url)
  end.

(** [_splitnetloc(url, 2)], given the text after the leading [//]. *)
Fixpoint splitnetloc (rest : str) : str * str :=
  match rest with
  | [] => ([], [])
  | c :: rest' =>
      if Str.has c (chars "/?#") then ([], rest)
      else let '(netloc, url) := splitnetloc rest' in (c :: netloc, url)
  end.

(** [\Av[a-fA-F0-9]+\..+\Z] *)
Definition ipvfuture : regex :=
  Seq (Lit (chars "v"))
      (Seq (Plus (OneOf (chars "abcdefABCDEF0123456789")))
           (Seq (Lit (chars ".")) (Seq (Plus Dot) Eos))).

Definition _check_bracketed_host (hostname : str) : result unit :=
  if Str.startswith hostname (chars "v") then
    match re_match ipvfuture hostname with
    | Some _ => Returned tt
    | None => Raised (ValueError "IPvFuture address is invalid")
    end
  else
    match Ipaddress.ip_address hostname with
    | Raised e => Raised e
    | Returned Ipaddress.IPv4 =>
        Raised (ValueError "An IPv4 address cannot be in brackets")
    | Returned Ipaddress.IPv6 => Returned tt
    end.

Definition _check_bracketed_netloc (netloc : str) : result unit :=
  let hostname_and_port := Str.after_last "@"%char netloc in
  match Str.partition "["%char hostname_and_port with
  | (before_bracket, Some bracketed) =>
      match before_bracket with
      | _ :: _ => Raised (ValueError "Invalid IPv6 URL")
      | [] =>
          let '(hostname, after) := Str.partition "]"%char bracketed in
          let port := match after with Some p => p | None => [] end in
          match port with
          | c :: _ =>
              if Ascii.eqb c ":" then _check_bracketed_host hostname
              else Raised (ValueError "Invalid IPv6 URL")
          | [] => _check_bracketed_host hostname
          end
      end
  | (_, None) =>
      _check_bracketed_host (fst (Str.partition ":"%char hostname_and_port))
  end.

Record SplitResult := {
  s_scheme : str; s_netloc : str; s_path : str;
  s_query : str; s_fragment : str
}.

(** [urlsplit(url)].  The last check, [_checknetloc], raises when the
    NFKC form of a non-ASCII netloc contains one of [/?#@:] that the
    netloc does not; no code point below 256 normalises to such a
    text, so on a [str] it returns. *)
Definition urlsplit (url0 : str) : result SplitResult :=
  let url := remove_unsafe (lstrip_c0 url0) in
  let '(scheme, url) := split_scheme url in
  let netloc_checked : result (str * str) :=
    match Str.strip_prefix (chars "//") url with
    | Some rest =>
        let '(netloc, url') := splitnetloc rest in
        let ob := Str.has "["%char netloc in
        let cb := Str.has "]"%char netloc in
        if (ob && negb cb) || (cb && negb ob)
        then Raised (ValueError "Invalid IPv6 URL")
        else if ob && cb then
          match _check_bracketed_netloc netloc with
          | Raised e => Raised e
          | Returned _ => Returned (netloc, url')
          end
        else Returned (netloc, url')
    | None => Returned ([], url)
    end in
  match netloc_checked with
  | Raised e => Raised e
  | Returned (netloc, url) =>
      let '(url, fragment) :=
        match Str.partition "#"%char url with
        | (b, Some a) => (b, a)
        | (_, None) => (url, [])
        end in
      let '(url, query) :=
        match Str.partition "?"%char url with
        | (b, Some a) => (b, a)
        | (_, None) => (url, [])
        end in
      Returned {| s_scheme := scheme; s_netloc := netloc; s_path := url;
                  s_query := query; s_fragment := fragment |}
  end.

(** [_splitparams(url)], called when [;] occurs in [url]. *)
Definition _splitparams (url : str) : str * str :=
  if Str.has "/"%char url then
    let tail := Str.after_last "/"%char url in
    let head := firstn (List.length url - List.length tail) url in
    match Str.partition ";"%char tail with
    | (b, Some a) => (head ++ b, a)
    | (_, None) => (url, [])
    end
  else
    match Str.partition ";"%char url with
    | (b, Some a) => (b, a)
    | (b, None) => (b, [])
    end.

Record ParseResult := {
  scheme : str; netloc : str; path : str;
  params : str; query : str; fragment : str
}.

Definition urlparse (url : str) : result ParseResult :=
  match urlsplit url with
  | Raised e => Raised e
  | Returned r =>
      let '(url, params) :=
        if Str.mem (s_scheme r) uses_params && Str.has ";"%char (s_path r)
        then _splitparams (s_path r)
        else (s_path r, []) in
      Returned {| scheme := s_scheme r; netloc := s_netloc r; path := url;
                  params := params; query := s_query r;
                  fragment := s_fragment r |}
  end.

(** The property [hostname] of a parse result ([None] when the netloc
    names no host). *)
Definition hostname (r : ParseResult) : option str :=
  let hostinfo := Str.after_last "@"%char (netloc r) in
  let host :=
    match Str.partition "["%char hostinfo with
    | (_, Some bracketed) => fst (Str.partition "]"%char bracketed)
    | (_, None) => fst (Str.partition ":"%char hostinfo)
    end in
  match host with
  | [] => None
  | _ :: _ =>
      match Str.partition "%"%char host with
      | (h, Some zone) => Some (lower h ++ chars "%" ++ zone)
      | (h, None) => Some (lower h)
      end
  end.

(** ** [bytes.decode('utf-8', 'replace')] *)

Definition REPLACEMENT : N := 65533%N.   (* U+FFFD *)

Definition is_cont (b : N) : bool := ((128 <=? b) && (b <=? 191))%N.

(** The decoder of CPython: an invalid start byte is replaced alone; a
    sequence cut short by an invalid continuation byte is replaced up
    to that byte; a sequence cut short by the end of the data is
    replaced as a whole. *)
Fixpoint utf8_decode (bs : list N) : ustr :=
  match bs with
  | [] => []
  | b1 :: t1 =>
      if (b1 <? 128)%N then b1 :: utf8_decode t1
      else if (b1 <? 194)%N then REPLACEMENT :: utf8_decode t1
      else if (b1 <? 224)%N then
        match t1 with
        | [] => [REPLACEMENT]
        | b2 :: t2 =>
            if is_cont b2
            then ((b1 - 192) * 64 + (b2 - 128))%N :: utf8_decode t2
            else REPLACEMENT :: utf8_decode t1
        end
      else if (b1 <? 240)%N then
        match t1 with
        | [] => [REPLACEMENT]
        | b2 :: t2 =>
            if negb (is_cont b2)
               || (if (b2 <? 160)%N then (b1 =? 224)%N else (b1 =? 237)%N)
            then REPLACEMENT :: utf8_decode t1
            else
              match t2 with
              | [] => [REPLACEMENT]
              | b3 :: t3 =>
                  if is_cont b3
                  then ((b1 - 224) * 4096 + (b2 - 128) * 64 + (b3 - 128))%N
                       :: utf8_decode t3
                  else REPLACEMENT :: utf8_decode t2
              end
        end
      else if (b1 <? 245)%N then
        match t1 with
        | [] => [REPLACEMENT]
        | b2 :: t2 =>
            if negb (is_cont b2)
               || (if (b2 <? 144)%N then (b1 =? 240)%N else (b1 =? 244)%N)
            then REPLACEMENT :: utf8_decode t1
            else
              match t2 with
              | [] => [REPLACEMENT]
              | b3 :: t3 =>
                  if negb (is_cont b3) then REPLACEMENT :: utf8_decode t2
                  else
                    match t3 with
                    | [] => [REPLACEMENT]
                    | b4 :: t4 =>
                        if is_cont b4
                        then ((b1 - 240) * 262144 + (b2 - 128) * 4096
                              + (b3 - 128) * 64 + (b4 - 128))%N
                             :: utf8_decode t4
                        else REPLACEMENT :: utf8_decode t3
                    end
              end
        end
      else REPLACEMENT :: utf8_decode t1
  end.

(** ** [unquote] *)

Definition _hexdig : str := chars "0123456789ABCDEFabcdef".

Definition hex_value (c : ascii) : N :=
  let n := code c in
  if (n <=? 57)%N then (n - 48)%N          (* 0-9 *)
  else if (n <=? 70)%N then (n - 55)%N     (* A-F *)
  else (n - 87)%N.                         (* a-f *)

(** One [item] of [bits[1:]] in [unquote_to_bytes]: the byte of its
    two leading hex digits and the rest, or [%] and the item. *)
Definition unquote_item (item : str) : list N :=
  match item with
  | a :: b :: rest =>
      if Str.has a _hexdig && Str.has b _hexdig
      then (hex_value a * 16 + hex_value b)%N :: py rest
      else 37%N :: py item
  | _ => 37%N :: py item
  end.

(** [unquote_to_bytes(string)], for a [string] of ASCII characters. *)
Definition unquote_to_bytes (string : str) : list N :=
  match Str.split "%"%char string with
  | [] => []
  | first :: items => py first ++ flat_map unquote_item items
  end.

Definition is_ascii (c : ascii) : bool := (code c <? 128)%N.

(** The loop over [_asciire.split(string)]: each maximal run of ASCII
    characters is percent-decoded and decoded as UTF-8, the other
    characters are kept.  [run] is the ASCII run read so far. *)
Fixpoint unquote_runs (run : str) (string : str) : ustr :=
  match string with
  | [] => utf8_decode (unquote_to_bytes run)
  | c :: rest =>
      if is_ascii c then unquote_runs (run ++ [c]) rest
      else utf8_decode (unquote_to_bytes run) ++ code c :: unquote_runs [] rest
  end.

Definition unquote (string : str) : ustr :=
  if negb (Str.has "%"%char string) then py string
  else unquote_runs [] string.

(** ** [parse_qsl] and [parse_qs], with their default arguments *)

Definition parse_qsl (qs : str) : list (ustr * ustr) :=
  match qs with
  | [] => []
  | _ :: _ =>
      flat_map
        (fun name_value : str =>
           match Str.partition "="%char name_value with
           | (name, Some ((_ :: _) as value)) =>
               [(unquote (Str.replace "+"%char " "%char name),
                 unquote (Str.replace "+"%char " "%char value))]
           | _ => []
           end)
        (Str.split "&"%char qs)
  end.

(** A [dict] from names to lists of values, in insertion order. *)
Definition dict := list (ustr * list ustr).

Fixpoint dict_get (d : dict) (name : ustr) : option (list ustr) :=
  match d with
  | [] => None
  | (k, vs) :: d' => if Str.equal k name then Some vs else dict_get d' name
  end.

(** [parsed_result[name].append(value)] when the name is there,
    [parsed_result[name] = [value]] when it is not. *)
Fixpoint dict_append (d : dict) (name value : ustr) : dict :=
  match d with
  | [] => [(name, [value])]
  | (k, vs) :: d' =>
      if Str.equal k name then (k, vs ++ [value]) :: d'
      else (k, vs) :: dict_append d' name value
  end.

Definition parse_qs (qs : str) : dict :=
  fold_left (fun d nv => dict_append d (fst nv) (snd nv)) (parse_qsl qs) [].

End Urllib.

(* ================================================================== *)
(** * [os.path.join] (posixpath) *)
(* ================================================================== *)

Definition os_path_join (a b : ustr) : ustr :=
  if Str.startswith b (u "/") then b
  else if Str.equal a [] || Str.endswith a 47%N then a ++ b
  else a ++ u "/" ++ b.

(* ================================================================== *)
(** * [extract_video_id] *)
(* ================================================================== *)

Import Urllib.

Definition IndexError : exn := Exn "IndexError" (u "list index out of range").

(** [l[i]] *)
Definition index {A} (l : list A) (i : nat) : result A :=
  match nth_error l i with
  | Some x => Returned x
  | None => Raised IndexError
  end.

Definition youtube_hosts : list str :=
  [chars "www.youtube.com"; chars "youtube.com"].

(** [parsed_url.hostname in ['www.youtube.com', 'youtube.com']] *)
Definition hostname_is_youtube (parsed_url : ParseResult) : bool :=
  match hostname parsed_url with
  | Some h => Str.mem h youtube_hosts
  | None => false
  end.

(** [query_params.get('v', [None])[0]] *)
Definition get_v (query_params : dict) : result (option ustr) :=
  match dict_get query_params (u "v") with
  | Some values =>
      match index values 0 with
      | Returned v => Returned (Some v)
      | Raised e => Raised e
      end
  | None => Returned None
  end.

(** [parsed_url.path.split('/')[2]] *)
Definition path_segment_2 (parsed_url : ParseResult) : result (option ustr) :=
  match index (Str.split "/"%char (path parsed_url)) 2 with
  | Returned seg => Returned (Some (py seg))
  | Raised e => Raised e
  end.

(** The part of [extract_video_id] after the loop over the patterns. *)
Definition urlparse_fallback (url : str) : result (option ustr) :=
  match urlparse url with
  | Raised e => Raised e
  | Returned parsed_url =>
      if hostname_is_youtube parsed_url then
        if Str.equal (path parsed_url) (chars "/watch") then
          get_v (parse_qs (query parsed_url))
        else if Str.startswith (path parsed_url) (chars "/embed/") then
          path_segment_2 parsed_url
        else if Str.startswith (path parsed_url) (chars "/v/") then
          path_segment_2 parsed_url
        else Returned None
      else Returned None
  end.

(** [extract_video_id(url)]: the identifier, [None], or the exception
    that leaves the function. *)
Definition extract_video_id (url : str) : result (option ustr) :=
  match first_match regex_patterns url with
  | Some id => Returned (Some (py id))
  | None => urlparse_fallback url
  end.

(* ================================================================== *)
(** * The world of [main]: the disk, the two services, the page *)
(* ================================================================== *)

(** A text literal of the program: the code points of a UTF-8 encoded
    source string. *)
Definition utf8 (s : string) : ustr := utf8_decode (py (chars s)).

Inductive node := Dir | File.

(** The disk: what each path names, if anything. *)
Definition filesystem := ustr -> option node.

Definition path_exists (fs : filesystem) (p : ustr) : bool :=
  match fs p with Some _ => true | None => false end.

Definition FileExistsError (name : ustr) : exn := Exn "FileExistsError" name.

(** [os.makedirs(name, exist_ok=True)] for a name of one component, the
    only kind the program passes: nothing to do on a directory, an error
    on a file, a new directory otherwise. *)
Definition makedirs (name : ustr) (fs : filesystem) : result filesystem :=
  match fs name with
  | Some Dir => Returned fs
  | Some File => Raised (FileExistsError name)
  | None => Returned (fun p => if Str.equal p name then Some Dir else fs p)
  end.

(** The options [download_audio] builds for yt_dlp. *)
Record postprocessor := {
  key : ustr; preferredcodec : ustr; preferredquality : ustr
}.
Record ydl_opts := {
  format : ustr; outtmpl : ustr; postprocessors : list postprocessor;
  quiet : bool; no_warnings : bool
}.

(** The two external services, each a black box acting on the disk:
    [YoutubeDL(opts).download([url])], [whisper.load_model(name)] and
    [model.transcribe(path, language=...)['text']] of the model loaded
    under [name].  Each returns or raises. *)
Record Services := {
  ydl_download : ydl_opts -> str -> filesystem -> result unit * filesystem;
  whisper_load_model : ustr -> filesystem -> result unit * filesystem;
  model_transcribe : ustr -> ustr -> ustr -> filesystem -> result ustr * filesystem
}.

(** What a run does that can be seen from outside: the calls to
    streamlit, to the operating system and to the services. *)
Inductive event :=
| st_title (body : ustr)
| st_write (body : ustr)
| st_success (body : ustr)
| st_error (body : ustr)
| st_warning (body : ustr)
| st_video (data : ustr)
| st_subheader (body : ustr)
| st_spinner (text : ustr)
| st_download_button (label data file_name mime : ustr)
| os_makedirs (name : ustr)
| os_path_exists (p : ustr) (answer : bool)
| YoutubeDL_download (opts : ydl_opts) (url : str)
| load_model (name : ustr)
| transcribe (model_name audio_path language : ustr).

(** The outcome of a computation: how it ended, the disk it leaves and
    the events it produced, in order. *)
Record outcome (A : Type) := {
  value : result A;
  disk : filesystem;
  trace : list event
}.
Arguments value {A} o.
Arguments disk {A} o.
Arguments trace {A} o.

Definition M (A : Type) := filesystem -> outcome A.

Definition ret {A} (a : A) : M A :=
  fun fs => {| value := Returned a; disk := fs; trace := [] |}.

Definition bind {A B} (m : M A) (k : A -> M B) : M B :=
  fun fs =>
    match m fs with
    | {| value := Returned a; disk := fs1; trace := t1 |} =>
        match k a fs1 with
        | {| value := r; disk := fs2; trace := t2 |} =>
            {| value := r; disk := fs2; trace := t1 ++ t2 |}
        end
    | {| value := Raised e; disk := fs1; trace := t1 |} =>
        {| value := Raised e; disk := fs1; trace := t1 |}
    end.

(** [try: m  except Exception as e: handler e] *)
Definition try_except {A} (m : M A) (handler : exn -> M A) : M A :=
  fun fs =>
    match m fs with
    | {| value := Returned a; disk := fs1; trace := t1 |} =>
        {| value := Returned a; disk := fs1; trace := t1 |}
    | {| value := Raised e; disk := fs1; trace := t1 |} =>
        match handler e fs1 with
        | {| value := r; disk := fs2; trace := t2 |} =>
            {| value := r; disk := fs2; trace := t1 ++ t2 |}
        end
    end.

Declare Scope py_scope.
Delimit Scope py_scope with py.
Notation "x <- m ;; k" := (bind m (fun x => k))
  (at level 100, m at next level, right associativity) : py_scope.
Notation "m ;; k" := (bind m (fun _ => k))
  (at level 100, right associativity) : py_scope.
Open Scope py_scope.

(** A call that shows on the page or in the trace and returns nothing. *)
Definition emit (e : event) : M unit :=
  fun fs => {| value := Returned tt; disk := fs; trace := [e] |}.

(** A pure call that may raise. *)
Definition lift {A} (r : result A) : M A :=
  fun fs => {| value := r; disk := fs; trace := [] |}.

(** A call to a service. *)
Definition call {A} (e : event) (f : filesystem -> result A * filesystem) : M A :=
  fun fs => {| value := fst (f fs); disk := snd (f fs); trace := [e] |}.

Definition do_makedirs (name : ustr) : M unit :=
  fun fs =>
    match makedirs name fs with
    | Returned fs' => {| value := Returned tt; disk := fs'; trace := [os_makedirs name] |}
    | Raised e => {| value := Raised e; disk := fs; trace := [os_makedirs name] |}
    end.

Definition do_path_exists (p : ustr) : M bool :=
  fun fs => {| value := Returned (path_exists fs p); disk := fs;
               trace := [os_path_exists p (path_exists fs p)] |}.

(* ================================================================== *)
(** * [download_audio] *)
(* ================================================================== *)

Definition download_audio (sv : Services)
    (video_url : str) (output_dir filename : ustr) : M unit :=
  do_makedirs output_dir ;;
  let opts := {|
    format := u "bestaudio/best";
    outtmpl := os_path_join output_dir filename;
    postprocessors := [ {| key := u "FFmpegExtractAudio";
                           preferredcodec := u "mp3";
                           preferredquality := u "192" |} ];
    quiet := true;
    no_warnings := true |} in
  call (YoutubeDL_download opts video_url) (ydl_download sv opts video_url).

(* ================================================================== *)
(** * [transcribe_audio] *)
(* ================================================================== *)

Definition transcription_error_prefix : ustr :=
  utf8 "Error durante la transcripción: ".

Definition transcribe_audio (sv : Services)
    (audio_path model_name language : ustr) : M ustr :=
  try_except
    (call (load_model model_name) (whisper_load_model sv model_name) ;;
     text <- call (transcribe model_name audio_path language)
                  (model_transcribe sv model_name audio_path language) ;;
     ret text)
    (fun e => ret (transcription_error_prefix ++ exn_str e)).

(* ================================================================== *)
(** * [main] *)
(* ================================================================== *)

Inductive language_code := es | en | fr | de | it | pt | ru | ja | ko | zh.
Inductive model_size := tiny | base | small | medium | large.

Definition language_str (l : language_code) : ustr :=
  match l with
  | es => u "es" | en => u "en" | fr => u "fr" | de => u "de" | it => u "it"
  | pt => u "pt" | ru => u "ru" | ja => u "ja" | ko => u "ko" | zh => u "zh"
  end.

Definition model_str (m : model_size) : ustr :=
  match m with
  | tiny => u "tiny" | base => u "base" | small => u "small"
  | medium => u "medium" | large => u "large"
  end.

(** What the user did on the page: the text typed, the two selections
    and whether the button was pressed. *)
Record widgets := {
  text_input : str;
  language_select : language_code;
  model_select : model_size;
  button : bool
}.

Definition msg_no_id : ustr :=
  utf8 "No se pudo extraer el ID del video. Por favor, verifica la URL ingresada.".
Definition msg_no_audio : ustr :=
  utf8 "No se pudo descargar el audio. Verifica la URL y vuelve a intentarlo.".
Definition msg_no_url : ustr :=
  utf8 "Por favor, ingresa una URL de YouTube.".
Definition transcription_error_marker : ustr :=
  utf8 "Error durante la transcripción".

(** [if video_id:] *)
Definition truthy (video_id : option ustr) : bool :=
  match video_id with
  | Some (_ :: _) => true
  | _ => false
  end.

Definition the_id (video_id : option ustr) : ustr :=
  match video_id with Some id => id | None => [] end.

Definition main (sv : Services) (page : widgets) : M unit :=
  emit (st_title (utf8 "Transcriptor de Videos de YouTube 🎥📝")) ;;
  emit (st_write (utf8 "Ingresa el enlace de un video de YouTube y obtén la transcripción del audio.")) ;;
  let youtube_url := text_input page in
  let language := language_str (language_select page) in
  let model_name := model_str (model_select page) in
  if button page then
    match youtube_url with
    | _ :: _ =>
        video_id <- lift (extract_video_id youtube_url) ;;
        if truthy video_id then
          let video_id := the_id video_id in
          emit (st_success (utf8 "ID del Video: `" ++ video_id ++ utf8 "`")) ;;
          emit (st_video (utf8 "https://www.youtube.com/watch?v=" ++ video_id)) ;;
          emit (st_spinner (utf8 "Descargando el audio...")) ;;
          let audio_filename := video_id ++ u ".mp3" in
          download_audio sv youtube_url (u "audios") audio_filename ;;
          let audio_path := os_path_join (u "audios") audio_filename in
          audio_exists <- do_path_exists audio_path ;;
          if audio_exists then
            emit (st_success (utf8 "Audio descargado correctamente.")) ;;
            emit (st_spinner (utf8 "Transcribiendo el audio...")) ;;
            transcription <- transcribe_audio sv audio_path model_name language ;;
            if negb (Str.contains transcription_error_marker transcription) then
              emit (st_subheader (utf8 "Transcripción:")) ;;
              emit (st_write transcription) ;;
              emit (st_download_button
                      (utf8 "Descargar Transcripción")
                      transcription
                      (video_id ++ u "_transcription.txt")
                      (u "text/plain"))
            else
              emit (st_error transcription)
          else
            emit (st_error msg_no_audio)
        else
          emit (st_error msg_no_id)
    | [] =>
        emit (st_warning msg_no_url)
    end
  else ret tt.

(* ================================================================== *)
(** * Fakes of the services, for concrete runs *)
(* ================================================================== *)

Module Fake.

Definition DownloadError : exn :=
  Exn "DownloadError" (u "ERROR: Video unavailable").

(** A download service that writes the file named by [outtmpl]. *)
Definition ydl_writes (opts : ydl_opts) (_ : str) (fs : filesystem)
  : result unit * filesystem :=
  (Returned tt,
   fun p => if Str.equal p (outtmpl opts) then Some File else fs p).

(** A download service that raises. *)
Definition ydl_raises (_ : ydl_opts) (_ : str) (fs : filesystem)
  : result unit * filesystem :=
  (Raised DownloadError, fs).

(** A download service that returns and writes nothing. *)
Definition ydl_idle (_ : ydl_opts) (_ : str) (fs : filesystem)
  : result unit * filesystem :=
  (Returned tt, fs).

Definition load_ok (_ : ustr) (fs : filesystem) : result unit * filesystem :=
  (Returned tt, fs).

Definition load_raises (_ : ustr) (fs : filesystem) : result unit * filesystem :=
  (Raised (Exn "RuntimeError" (u "Model not found")), fs).

(** A recognition service that hears [text] in every file. *)
Definition hears (text : ustr) (_ _ _ : ustr) (fs : filesystem)
  : result ustr * filesystem :=
  (Returned text, fs).

(** A recognition service that raises on a path that names nothing. *)
Definition hears_if_exists (text : ustr) (_ audio_path _ : ustr) (fs : filesystem)
  : result ustr * filesystem :=
  if path_exists fs audio_path then (Returned text, fs)
  else (Raised (Exn "RuntimeError" (u "Failed to load audio")), fs).

Definition services (download : ydl_opts -> str -> filesystem -> result unit * filesystem)
    (text : ustr) : Services :=
  {| ydl_download := download;
     whisper_load_model := load_ok;
     model_transcribe := hears text |}.

Definition empty_disk : filesystem := fun _ => None.

Definition submit (url : string) : widgets :=
  {| text_input := chars url; language_select := es;
     model_select := base; button := true |}.

End Fake.

(* ================================================================== *)
(** * The vocabulary of the statements *)
(* ================================================================== *)

(** The first value given to [name] in a list of pairs. *)
Definition first_value (name : ustr) (pairs : list (ustr * ustr)) : option ustr :=
  option_map snd (find (fun nv => Str.equal (fst nv) name) pairs).

(** The first value a [dict] of lists holds for [name]. *)
Definition dict_first (d : dict) (name : ustr) : option ustr :=
  match dict_get d name with
  | Some (v :: _) => Some v
  | _ => None
  end.

Definition no_empty_list (d : dict) : Prop :=
  forall name, dict_get d name <> Some [].

(** The literals and the resolver stay folded in the proofs about
    [main]. *)
Arguments utf8 : simpl never.
Arguments u : simpl never.
Arguments chars : simpl never.
Arguments extract_video_id : simpl never.
Arguments os_path_join : simpl never.
Arguments makedirs : simpl never.
Arguments path_exists : simpl never.

(** The two calls every run of [main] starts with. *)
Definition page_header : list event :=
  [ st_title (utf8 "Transcriptor de Videos de YouTube 🎥📝");
    st_write (utf8 "Ingresa el enlace de un video de YouTube y obtén la transcripción del audio.") ].

(** The calls between the resolution and the download. *)
Definition id_shown (video_id : ustr) : list event :=
  [ st_success (utf8 "ID del Video: `" ++ video_id ++ utf8 "`");
    st_video (utf8 "https://www.youtube.com/watch?v=" ++ video_id);
    st_spinner (utf8 "Descargando el audio...") ].

Definition audio_path_of (video_id : ustr) : ustr :=
  os_path_join (u "audios") (video_id ++ u ".mp3").

Ltac run_monad :=
  unfold bind, try_except, emit, lift, call, ret, do_path_exists;
  cbn [value disk trace fst snd app].

(** The calls between the download and the transcription. *)
Definition audio_found (video_id : ustr) : list event :=
  [ os_path_exists (audio_path_of video_id) true;
    st_success (utf8 "Audio descargado correctamente.");
    st_spinner (utf8 "Transcribiendo el audio...") ].

(** The calls that follow the transcription. *)
Definition transcription_shown (video_id transcription : ustr) : list event :=
  if Str.contains transcription_error_marker transcription then
    [ st_error transcription ]
  else
    [ st_subheader (utf8 "Transcripción:");
      st_write transcription;
      st_download_button (utf8 "Descargar Transcripción") transcription
                         (video_id ++ u "_transcription.txt") (u "text/plain") ].

(** A monitor on traces: every call to the transcriber comes after a
    check of the path it is given (of some path, for [load_model]) that
    answered [true].  [confirmed] holds the paths confirmed so far. *)
Fixpoint checked_before_use (confirmed : list ustr) (tr : list event) : bool :=
  match tr with
  | [] => true
  | os_path_exists p true :: tr' => checked_before_use (p :: confirmed) tr'
  | transcribe _ p _ :: tr' =>
      Str.mem p confirmed && checked_before_use confirmed tr'
  | load_model _ :: tr' =>
      match confirmed with
      | [] => false
      | _ :: _ => checked_before_use confirmed tr'
      end
  | _ :: tr' => checked_before_use confirmed tr'
  end.

Definition is_transcriber_call (e : event) : bool :=
  match e with
  | load_model _ | transcribe _ _ _ => true
  | _ => false
  end.

Definition is_st_error (e : event) : bool :=
  match e with st_error _ => true | _ => false end.

(** The event that follows the header, when the button is pressed: it
    depends on the URL alone. *)
Definition resolution_shown (url : str) : option event :=
  match url with
  | [] => Some (st_warning msg_no_url)
  | _ :: _ =>
      match extract_video_id url with
      | Raised _ => None
      | Returned video_id =>
          if truthy video_id
          then Some (st_success (utf8 "ID del Video: `" ++ the_id video_id ++ utf8 "`"))
          else Some (st_error msg_no_id)
      end
  end.

(** The characters the group [[^?&/]+] accepts. *)
Definition id_char (c : ascii) : bool := negb (Str.has c (chars "?&/")).

(** Every way [r] matches leaves the group closed on a non-empty piece of
    the input, free of [?], [&] and [/]. *)
Definition captures_id (r : regex) : Prop :=
  forall s g m,
    In m (run r (s, g)) ->
    exists pre id,
      s = pre ++ id ++ fst m /\ snd m = Some id /\
      id <> [] /\ forallb id_char id = true.

(** What may follow an identifier in a URL: nothing, or a character the
    group does not accept. *)
Definition delimited (tail : str) : Prop :=
  tail = [] \/ exists c t, tail = c :: t /\ id_char c = false.

(** The six ways the optional scheme and [www.] can be written, and the
    four shapes in which the identifier follows a fixed text. *)
Definition optional_prefixes : list str :=
  map chars [""; "http://"; "https://"; "www."; "http://www."; "https://www."]%string.

Definition direct_shapes : list str :=
  map chars ["youtu.be/"; "youtube.com/embed/"; "youtube.com/v/";
             "youtube.com/watch?v="]%string.

(** [q] can stand between [watch?] and the [&v=] that the lazy star
    finds: no newline, no [&v=] that begins inside it, and it does not
    begin with [v=]. *)
Definition skipped_query (q : str) : Prop :=
  forallb (in_cset Dot) q = true /\
  Str.contains (chars "&v=") (q ++ chars "&v") = false /\
  Str.startswith q (chars "v=") = false.

(** The calls to the operating system and to the services. *)
Definition is_outside_call (e : event) : bool :=
  match e with
  | os_makedirs _ | os_path_exists _ _ | YoutubeDL_download _ _
  | load_model _ | transcribe _ _ _ => true
  | _ => false
  end.

(** The button was pressed on a URL that resolves to an identifier that
    is not empty. *)
Definition has_usable_id (page : widgets) : Prop :=
  button page = true /\ text_input page <> [] /\
  exists video_id,
    extract_video_id (text_input page) = Returned (Some video_id) /\
    video_id <> [].

(* ================================================================== *)
(** * Properties of the [str] methods *)
(* ================================================================== *)

Unset Implicit Arguments.

Section StrFacts.
Context {A : Type} `{Eqb A}.

Lemma eqb_refl (x : A) : eqb x x = true.
Proof. now apply eqb_eq. Qed.

Lemma eqb_neq (x y : A) : eqb x y = false <-> x <> y.
Proof.
  split.
  - intros E ->. rewrite eqb_refl in E. discriminate.
  - intros N. destruct (eqb x y) eqn:E; [|reflexivity].
    apply eqb_eq in E. contradiction.
Qed.

Lemma equal_eq (a b : list A) : Str.equal a b = true <-> a = b.
Proof.
  revert b. induction a as [|x a IH]; intros [|y b]; simpl;
    try (split; [discriminate|discriminate]); try tauto.
  rewrite andb_true_iff, eqb_eq, IH. split.
  - intros [-> ->]. reflexivity.
  - intros E. inversion E. auto.
Qed.

Lemma equal_refl (a : list A) : Str.equal a a = true.
Proof. now apply equal_eq. Qed.

Lemma equal_neq (a b : list A) : Str.equal a b = false <-> a <> b.
Proof.
  split.
  - intros E ->. rewrite equal_refl in E. discriminate.
  - intros N. destruct (Str.equal a b) eqn:E; [|reflexivity].
    apply equal_eq in E. contradiction.
Qed.

(** A segment free of [c], followed by nothing or by [c], is the first
    piece [split] cuts. *)
Lemma split_first_piece (c : A) (seg rest : list A) :
  Str.has c seg = false ->
  rest = [] \/ (exists r, rest = c :: r) ->
  exists pieces, Str.split c (seg ++ rest) = seg :: pieces.
Proof.
  intros Hseg Hrest. induction seg as [|x seg IH]; simpl.
  - destruct Hrest as [-> | [r ->]]; simpl.
    + eexists. reflexivity.
    + rewrite eqb_refl. eexists. reflexivity.
  - unfold Str.has in Hseg. simpl in Hseg.
    apply orb_false_iff in Hseg. destruct Hseg as [Hx Hs].
    assert (Hxc : eqb x c = false).
    { apply eqb_neq. intros ->. rewrite eqb_refl in Hx. discriminate. }
    rewrite Hxc. destruct (IH Hs) as [pieces ->]. eexists. reflexivity.
Qed.
End StrFacts.

(* ================================================================== *)
(** * Properties of the URL resolver *)
(* ================================================================== *)

(** The loop stops at the first pattern that matches. *)
Lemma first_match_stops (before : list regex) (pattern : regex)
    (after : list regex) (url : str) (m : match_object) :
  Forall (fun q => re_match q url = None) before ->
  re_match pattern url = Some m ->
  first_match (before ++ pattern :: after) url = Some (group_id m).
Proof.
  intros Hbefore Hm. induction Hbefore as [|q before Hq _ IH]; simpl.
  - rewrite Hm. reflexivity.
  - rewrite Hq. exact IH.
Qed.

(** [C3] On each of the five recognised shapes [extract_video_id]
    returns the identifier [abc123]; and, whatever the URL, the patterns
    are tried in the order of [regex_patterns] and the group of the first
    one that matches is the result. *)
Theorem extract_video_id_recognized_shapes :
  extract_video_id (chars "https://youtu.be/abc123") = Returned (Some (u "abc123")) /\
  extract_video_id (chars "https://www.youtube.com/watch?v=abc123") = Returned (Some (u "abc123")) /\
  extract_video_id (chars "https://www.youtube.com/watch?foo=1&v=abc123") = Returned (Some (u "abc123")) /\
  extract_video_id (chars "https://www.youtube.com/embed/abc123") = Returned (Some (u "abc123")) /\
  extract_video_id (chars "https://www.youtube.com/v/abc123") = Returned (Some (u "abc123")) /\
  (forall url before pattern after m,
      regex_patterns = before ++ pattern :: after ->
      Forall (fun q => re_match q url = None) before ->
      re_match pattern url = Some m ->
      extract_video_id url = Returned (Some (py (group_id m)))).
Proof.
  repeat split; try (vm_compute; reflexivity).
  intros url before pattern after m Hsplit Hbefore Hm.
  unfold extract_video_id. rewrite Hsplit.
  rewrite (@first_match_stops before pattern after url m Hbefore Hm). reflexivity.
Qed.

(** A URL on which both watch patterns match, with different groups: the
    earlier pattern decides. *)
Lemma extract_video_id_recognized_shapes_witness :
  re_match pattern_watch_any_v (chars "youtube.com/watch?v=a&v=b")
    = Some {| group_id := chars "b" |} /\
  extract_video_id (chars "youtube.com/watch?v=a&v=b") = Returned (Some (u "a")).
Proof.
  split; [vm_compute; reflexivity|].
  apply (proj2 (proj2 (proj2 (proj2 (proj2 extract_video_id_recognized_shapes))))
           (chars "youtube.com/watch?v=a&v=b")
           [pattern_short; pattern_embed; pattern_v] pattern_watch
           [pattern_watch_any_v] {| group_id := chars "a" |}).
  - reflexivity.
  - repeat constructor.
  - vm_compute. reflexivity.
Defined.

(** [C2] [extract_video_id] returns [None] on [https://example.com/], but
    it does not return on every string: on [http://[] the ValueError that
    [urlparse] raises leaves the function. *)
Theorem extract_video_id_raises :
  extract_video_id (chars "https://example.com/") = Returned None /\
  extract_video_id (chars "http://[") = Raised (ValueError "Invalid IPv6 URL").
Proof. split; vm_compute; reflexivity. Qed.

(** ** The fallback on [urlparse] *)

Lemma dict_get_append (d : dict) (n v name : ustr) :
  dict_get (dict_append d n v) name =
  if Str.equal n name
  then Some (match dict_get d name with Some vs => vs ++ [v] | None => [v] end)
  else dict_get d name.
Proof.
  induction d as [|[k vs] d IH]; simpl.
  - destruct (Str.equal n name); reflexivity.
  - destruct (Str.equal k n) eqn:Ekn; simpl.
    + apply equal_eq in Ekn. subst k.
      destruct (Str.equal n name); reflexivity.
    + destruct (Str.equal k name) eqn:Ek.
      * apply equal_eq in Ek. subst k.
        apply equal_neq in Ekn.
        assert (E : Str.equal n name = false) by (apply equal_neq; congruence).
        rewrite E. reflexivity.
      * exact IH.
Qed.

Lemma no_empty_list_append (d : dict) (n v : ustr) :
  no_empty_list d -> no_empty_list (dict_append d n v).
Proof.
  intros Hd name. rewrite dict_get_append.
  destruct (Str.equal n name); [|apply Hd].
  destruct (dict_get d name) as [[|x vs]|]; discriminate.
Qed.

Lemma dict_first_fold (pairs : list (ustr * ustr)) (d : dict) (name : ustr) :
  no_empty_list d ->
  let d' := fold_left (fun d nv => dict_append d (fst nv) (snd nv)) pairs d in
  no_empty_list d' /\
  dict_first d' name =
  match dict_first d name with
  | Some v => Some v
  | None => first_value name pairs
  end.
Proof.
  revert d. induction pairs as [|[n v] pairs IH]; intros d Hd; simpl.
  - split; [exact Hd|]. destruct (dict_first d name); reflexivity.
  - destruct (IH (dict_append d n v) (no_empty_list_append d n v Hd)) as [Hne IHf].
    split; [exact Hne|]. simpl in IHf. rewrite IHf.
    unfold dict_first. rewrite dict_get_append.
    unfold first_value. simpl.
    destruct (Str.equal n name) eqn:En.
    + destruct (dict_get d name) as [[|x vs]|]; reflexivity.
    + destruct (dict_get d name) as [[|x vs]|]; reflexivity.
Qed.

(** [query_params.get('v', [None])[0]] never raises on the result of
    [parse_qs]: it is the first value of [v] in the query, or [None]. *)
Lemma get_v_parse_qs (qs : str) :
  get_v (parse_qs qs) = Returned (first_value (u "v") (parse_qsl qs)).
Proof.
  unfold parse_qs.
  assert (Hempty : no_empty_list []) by (intros name; discriminate).
  destruct (dict_first_fold (parse_qsl qs) [] (u "v") Hempty) as [Hne Hfirst].
  simpl in Hne, Hfirst. unfold dict_first in Hfirst at 1.
  unfold get_v.
  destruct (dict_get _ (u "v")) as [[|v vs]|] eqn:Eg.
  - exfalso. exact (Hne _ Eg).
  - simpl. rewrite <- Hfirst. reflexivity.
  - rewrite <- Hfirst. reflexivity.
Qed.

Lemma hostname_is_youtube_iff (p : ParseResult) :
  hostname_is_youtube p = true <->
  hostname p = Some (chars "www.youtube.com") \/
  hostname p = Some (chars "youtube.com").
Proof.
  unfold hostname_is_youtube, youtube_hosts, Str.mem.
  destruct (hostname p) as [h|]; simpl.
  - rewrite orb_false_r, orb_true_iff, !equal_eq.
    split; (intros [E|E]; [left|right]; congruence).
  - split; [discriminate|]. intros [E|E]; discriminate.
Qed.

(** The piece of index 2 of a path [/embed/<seg>...] or [/v/<seg>...]. *)
Lemma path_segment_2_after_prefix (p : ParseResult) (prefix seg rest : str) :
  prefix = chars "/embed/" \/ prefix = chars "/v/" ->
  path p = prefix ++ seg ++ rest ->
  Str.has "/"%char seg = false ->
  rest = [] \/ (exists r, rest = "/"%char :: r) ->
  path_segment_2 p = Returned (Some (py seg)).
Proof.
  intros Hprefix Hpath Hseg Hrest. unfold path_segment_2. rewrite Hpath.
  destruct (@split_first_piece ascii _ "/"%char seg rest Hseg Hrest)
    as [pieces Hsplit].
  destruct Hprefix as [-> | ->]; unfold chars; cbn; rewrite Hsplit; reflexivity.
Qed.

(** [C6] When no pattern matches and [urlparse] returns, the result is
    read off the parsed URL: [None] unless the host is [youtube.com] or
    [www.youtube.com]; on such a host, the first value of [v] in the query
    for the path [/watch], the path segment that follows the prefix for
    [/embed/<id>] and [/v/<id>], and [None] for any other path. *)
Theorem extract_video_id_fallback (url : str) (p : ParseResult) :
  first_match regex_patterns url = None ->
  urlparse url = Returned p ->
  (hostname p <> Some (chars "www.youtube.com") ->
   hostname p <> Some (chars "youtube.com") ->
   extract_video_id url = Returned None) /\
  (hostname p = Some (chars "www.youtube.com") \/
   hostname p = Some (chars "youtube.com") ->
   (path p = chars "/watch" ->
    extract_video_id url = Returned (first_value (u "v") (parse_qsl (query p)))) /\
   (forall prefix seg rest,
       prefix = chars "/embed/" \/ prefix = chars "/v/" ->
       path p = prefix ++ seg ++ rest ->
       Str.has "/"%char seg = false ->
       rest = [] \/ (exists r, rest = "/"%char :: r) ->
       extract_video_id url = Returned (Some (py seg))) /\
   (path p <> chars "/watch" ->
    Str.startswith (path p) (chars "/embed/") = false ->
    Str.startswith (path p) (chars "/v/") = false ->
    extract_video_id url = Returned None)).
Proof.
  intros Hre Hparse. unfold extract_video_id, urlparse_fallback.
  rewrite Hre, Hparse. split.
  - intros Hwww Hbare.
    destruct (hostname_is_youtube p) eqn:Hhost; [|reflexivity].
    apply hostname_is_youtube_iff in Hhost. tauto.
  - intros Hhost. apply hostname_is_youtube_iff in Hhost. rewrite Hhost.
    split; [|split].
    + intros Hpath. rewrite Hpath, equal_refl. apply get_v_parse_qs.
    + intros prefix seg rest Hprefix Hpath Hseg Hrest.
      pose proof (path_segment_2_after_prefix p prefix seg rest Hprefix Hpath Hseg Hrest) as Hsegment.
      rewrite Hsegment. rewrite Hpath.
      destruct Hprefix as [-> | ->]; unfold chars; cbn; reflexivity.
    + intros Hwatch Hembed Hv.
      apply equal_neq in Hwatch. rewrite Hwatch, Hembed, Hv. reflexivity.
Qed.

(** Four URLs that no pattern matches: an [/embed/] path under another
    scheme, a [/watch] path on an upper-case host, another host, another
    path. *)
Lemma extract_video_id_fallback_witness :
  extract_video_id (chars "ftp://youtube.com/embed/abc123/x") = Returned (Some (u "abc123")) /\
  extract_video_id (chars "HTTPS://WWW.YOUTUBE.COM/watch?t=1&v=abc123")
    = Returned (first_value (u "v") [(u "t", u "1"); (u "v", u "abc123")]) /\
  extract_video_id (chars "ftp://example.com/watch?v=abc123") = Returned None /\
  extract_video_id (chars "ftp://youtube.com/shorts/abc123") = Returned None.
Proof.
  split; [|split; [|split]].
  - pose (p := {| scheme := chars "ftp"; netloc := chars "youtube.com";
                  path := chars "/embed/abc123/x"; params := [];
                  query := []; fragment := [] |}).
    assert (Hre : first_match regex_patterns (chars "ftp://youtube.com/embed/abc123/x") = None)
      by (vm_compute; reflexivity).
    assert (Hp : urlparse (chars "ftp://youtube.com/embed/abc123/x") = Returned p)
      by (vm_compute; reflexivity).
    apply (proj1 (proj2 (proj2 (extract_video_id_fallback _ _ Hre Hp)
                           (or_intror eq_refl)))
             (chars "/embed/") (chars "abc123") (chars "/x")).
    + left. reflexivity.
    + reflexivity.
    + reflexivity.
    + right. exists (chars "x"). reflexivity.
  - pose (p := {| scheme := chars "https"; netloc := chars "WWW.YOUTUBE.COM";
                  path := chars "/watch"; params := [];
                  query := chars "t=1&v=abc123"; fragment := [] |}).
    assert (Hre : first_match regex_patterns (chars "HTTPS://WWW.YOUTUBE.COM/watch?t=1&v=abc123") = None)
      by (vm_compute; reflexivity).
    assert (Hp : urlparse (chars "HTTPS://WWW.YOUTUBE.COM/watch?t=1&v=abc123") = Returned p)
      by (vm_compute; reflexivity).
    apply (proj1 (proj2 (extract_video_id_fallback _ _ Hre Hp) (or_introl eq_refl))).
    reflexivity.
  - pose (p := {| scheme := chars "ftp"; netloc := chars "example.com";
                  path := chars "/watch"; params := [];
                  query := chars "v=abc123"; fragment := [] |}).
    assert (Hre : first_match regex_patterns (chars "ftp://example.com/watch?v=abc123") = None)
      by (vm_compute; reflexivity).
    assert (Hp : urlparse (chars "ftp://example.com/watch?v=abc123") = Returned p)
      by (vm_compute; reflexivity).
    apply (proj1 (extract_video_id_fallback _ _ Hre Hp)); vm_compute; discriminate.
  - pose (p := {| scheme := chars "ftp"; netloc := chars "youtube.com";
                  path := chars "/shorts/abc123"; params := [];
                  query := []; fragment := [] |}).
    assert (Hre : first_match regex_patterns (chars "ftp://youtube.com/shorts/abc123") = None)
      by (vm_compute; reflexivity).
    assert (Hp : urlparse (chars "ftp://youtube.com/shorts/abc123") = Returned p)
      by (vm_compute; reflexivity).
    apply (proj2 (proj2 (proj2 (extract_video_id_fallback _ _ Hre Hp)
                           (or_intror eq_refl)))).
    + vm_compute. discriminate.
    + reflexivity.
    + reflexivity.
Defined.

(* ================================================================== *)
(** * Properties of the pipeline *)
(* ================================================================== *)

(** ** The shape of a run of [main] *)

Lemma main_button_not_pressed (sv : Services) (page : widgets) (fs : filesystem) :
  button page = false ->
  main sv page fs = {| value := Returned tt; disk := fs; trace := page_header |}.
Proof. intros Hb. unfold main. rewrite Hb. reflexivity. Qed.

Lemma main_without_url (sv : Services) (page : widgets) (fs : filesystem) :
  button page = true ->
  text_input page = [] ->
  main sv page fs =
  {| value := Returned tt; disk := fs;
     trace := page_header ++ [st_warning msg_no_url] |}.
Proof. intros Hb Hu. unfold main. rewrite Hb, Hu. reflexivity. Qed.

Lemma main_resolver_raises (sv : Services) (page : widgets) (fs : filesystem)
    (e : exn) :
  button page = true ->
  text_input page <> [] ->
  extract_video_id (text_input page) = Raised e ->
  main sv page fs = {| value := Raised e; disk := fs; trace := page_header |}.
Proof.
  intros Hb Hu Hid. unfold main. rewrite Hb.
  destruct (text_input page) as [|c url] eqn:Eurl; [contradiction|].
  run_monad. rewrite Hid. reflexivity.
Qed.

Lemma main_without_id (sv : Services) (page : widgets) (fs : filesystem)
    (video_id : option ustr) :
  button page = true ->
  text_input page <> [] ->
  extract_video_id (text_input page) = Returned video_id ->
  truthy video_id = false ->
  main sv page fs =
  {| value := Returned tt; disk := fs;
     trace := page_header ++ [st_error msg_no_id] |}.
Proof.
  intros Hb Hu Hid Ht. unfold main. rewrite Hb.
  destruct (text_input page) as [|c url] eqn:Eurl; [contradiction|].
  run_monad. rewrite Hid, Ht. reflexivity.
Qed.

(** A run that has an identifier: what [main] does with the outcomes of
    [download_audio] and [transcribe_audio]. *)
Lemma main_with_id (sv : Services) (page : widgets) (fs : filesystem)
    (video_id : ustr) :
  button page = true ->
  text_input page <> [] ->
  extract_video_id (text_input page) = Returned (Some video_id) ->
  video_id <> [] ->
  main sv page fs =
  match download_audio sv (text_input page) (u "audios") (video_id ++ u ".mp3") fs with
  | {| value := Raised e; disk := fs1; trace := t1 |} =>
      {| value := Raised e; disk := fs1;
         trace := page_header ++ id_shown video_id ++ t1 |}
  | {| value := Returned _; disk := fs1; trace := t1 |} =>
      if path_exists fs1 (audio_path_of video_id) then
        match transcribe_audio sv (audio_path_of video_id)
                (model_str (model_select page))
                (language_str (language_select page)) fs1 with
        | {| value := Raised e; disk := fs2; trace := t2 |} =>
            {| value := Raised e; disk := fs2;
               trace := page_header ++ id_shown video_id ++ t1 ++
                        audio_found video_id ++ t2 |}
        | {| value := Returned transcription; disk := fs2; trace := t2 |} =>
            {| value := Returned tt; disk := fs2;
               trace := page_header ++ id_shown video_id ++ t1 ++
                        audio_found video_id ++ t2 ++
                        transcription_shown video_id transcription |}
        end
      else
        {| value := Returned tt; disk := fs1;
           trace := page_header ++ id_shown video_id ++ t1 ++
                    [os_path_exists (audio_path_of video_id) false;
                     st_error msg_no_audio] |}
  end.
Proof.
  intros Hb Hu Hid Hne. unfold main. rewrite Hb.
  destruct (text_input page) as [|c url] eqn:Eurl; [contradiction|].
  run_monad. rewrite Hid.
  destruct video_id as [|x video_id]; [contradiction|].
  cbn [truthy the_id].
  destruct (download_audio _ _ _ _ _) as [[[]|e] fs1 t1]; [|reflexivity].
  fold (audio_path_of (x :: video_id)).
  destruct (path_exists fs1 _); [|reflexivity].
  destruct (transcribe_audio _ _ _ _ _) as [[transcription|e] fs2 t2]; [|reflexivity].
  unfold transcription_shown.
  destruct (Str.contains _ _); cbn [negb];
    cbn [app page_header id_shown audio_found]; rewrite <- ?app_assoc; reflexivity.
Qed.

(** The events of the two stages. *)
Lemma download_audio_trace (sv : Services) (url : str) (dir name : ustr)
    (fs : filesystem) :
  exists opts,
    trace (download_audio sv url dir name fs) = [os_makedirs dir] \/
    trace (download_audio sv url dir name fs) =
      [os_makedirs dir; YoutubeDL_download opts url].
Proof.
  eexists. unfold download_audio, do_makedirs. run_monad.
  destruct (makedirs dir fs); [right|left]; reflexivity.
Qed.

Lemma transcribe_audio_trace (sv : Services) (p m l : ustr) (fs : filesystem) :
  trace (transcribe_audio sv p m l fs) = [load_model m] \/
  trace (transcribe_audio sv p m l fs) = [load_model m; transcribe m p l].
Proof.
  unfold transcribe_audio. run_monad.
  destruct (whisper_load_model sv m fs) as [[[]|e] fs1]; cbn [fst snd];
    [|left; reflexivity].
  destruct (model_transcribe sv m p l fs1) as [[t|e] fs2]; right; reflexivity.
Qed.

(** [C5] Whatever the path, the model and the language, and whatever the
    recognition service does, [transcribe_audio] returns a text: the one
    the service produced or, when loading the model or transcribing
    raised, the error prefix followed by the message of the exception. *)
Theorem transcribe_audio_returns (sv : Services) (audio_path model_name language : ustr)
    (fs : filesystem) :
  exists text,
    value (transcribe_audio sv audio_path model_name language fs) = Returned text /\
    (forall e,
        fst (whisper_load_model sv model_name fs) = Raised e ->
        text = transcription_error_prefix ++ exn_str e) /\
    (forall e,
        fst (whisper_load_model sv model_name fs) = Returned tt ->
        fst (model_transcribe sv model_name audio_path language
               (snd (whisper_load_model sv model_name fs))) = Raised e ->
        text = transcription_error_prefix ++ exn_str e) /\
    (forall heard,
        fst (whisper_load_model sv model_name fs) = Returned tt ->
        fst (model_transcribe sv model_name audio_path language
               (snd (whisper_load_model sv model_name fs))) = Returned heard ->
        text = heard).
Proof.
  unfold transcribe_audio. run_monad.
  destruct (whisper_load_model sv model_name fs) as [[[]|e] fs1]; cbn [fst snd].
  - destruct (model_transcribe sv model_name audio_path language fs1)
      as [[heard|e] fs2]; cbn [fst snd]; eexists; (split; [reflexivity|]);
      repeat split; intros; congruence.
  - eexists. split; [reflexivity|]. repeat split; intros; congruence.
Qed.

(** A model that does not load, and a file that is not there. *)
Lemma transcribe_audio_returns_witness :
  value (transcribe_audio
           {| ydl_download := Fake.ydl_idle;
              whisper_load_model := Fake.load_raises;
              model_transcribe := Fake.hears (u "hola") |}
           (u "audios/abc123.mp3") (u "huge") (u "es") Fake.empty_disk)
    = Returned (transcription_error_prefix ++ u "Model not found") /\
  value (transcribe_audio
           {| ydl_download := Fake.ydl_idle;
              whisper_load_model := Fake.load_ok;
              model_transcribe := Fake.hears_if_exists (u "hola") |}
           (u "audios/abc123.mp3") (u "base") (u "es") Fake.empty_disk)
    = Returned (transcription_error_prefix ++ u "Failed to load audio").
Proof.
  split.
  - destruct (transcribe_audio_returns
                {| ydl_download := Fake.ydl_idle;
                   whisper_load_model := Fake.load_raises;
                   model_transcribe := Fake.hears (u "hola") |}
                (u "audios/abc123.mp3") (u "huge") (u "es") Fake.empty_disk)
      as [text [Hvalue [Hload _]]].
    rewrite Hvalue. f_equal. apply (Hload (Exn "RuntimeError" (u "Model not found"))).
    reflexivity.
  - destruct (transcribe_audio_returns
                {| ydl_download := Fake.ydl_idle;
                   whisper_load_model := Fake.load_ok;
                   model_transcribe := Fake.hears_if_exists (u "hola") |}
                (u "audios/abc123.mp3") (u "base") (u "es") Fake.empty_disk)
      as [text [Hvalue [_ [Htranscribe _]]]].
    rewrite Hvalue. f_equal.
    apply (Htranscribe (Exn "RuntimeError" (u "Failed to load audio")));
      reflexivity.
Defined.

(** ** The acquisition stage *)

Lemma mem_In (p : ustr) (l : list ustr) : Str.mem p l = true -> In p l.
Proof.
  unfold Str.mem. rewrite existsb_exists. intros [q [Hq Heq]].
  apply equal_eq in Heq. subst q. exact Hq.
Qed.

Lemma checked_before_transcribe (tr before after : list event) (m p l : ustr) :
  forall confirmed,
    checked_before_use confirmed tr = true ->
    tr = before ++ transcribe m p l :: after ->
    In p confirmed \/ In (os_path_exists p true) before.
Proof.
  revert tr. induction before as [|e before IH]; intros tr confirmed Hok ->.
  - simpl in Hok. apply andb_true_iff in Hok. left. apply mem_In. tauto.
  - simpl app in Hok.
    assert (Hstep : exists confirmed',
               checked_before_use confirmed' (before ++ transcribe m p l :: after) = true /\
               (In p confirmed' -> In p confirmed \/ e = os_path_exists p true)).
    { destruct e; simpl in Hok;
        try (exists confirmed; split; [exact Hok | tauto]).
      - destruct answer.
        + exists (p0 :: confirmed). split; [exact Hok|].
          intros [-> | Hin]; [right; reflexivity | left; exact Hin].
        + exists confirmed. split; [exact Hok | tauto].
      - destruct confirmed as [|c confirmed]; [discriminate|].
        exists (c :: confirmed). split; [exact Hok | tauto].
      - apply andb_true_iff in Hok. exists confirmed. split; tauto. }
    destruct Hstep as [confirmed' [Hok' Hconf]].
    destruct (IH _ confirmed' Hok' eq_refl) as [Hin | Hin].
    + destruct (Hconf Hin) as [H | ->]; [left; exact H | right; left; reflexivity].
    + right. right. exact Hin.
Qed.

Lemma checked_before_load_model (tr before after : list event) (m : ustr) :
  forall confirmed,
    checked_before_use confirmed tr = true ->
    tr = before ++ load_model m :: after ->
    confirmed <> [] \/ exists p, In (os_path_exists p true) before.
Proof.
  revert tr. induction before as [|e before IH]; intros tr confirmed Hok ->.
  - simpl in Hok. left. destruct confirmed; [discriminate | discriminate].
  - simpl app in Hok.
    assert (Hstep : exists confirmed',
               checked_before_use confirmed' (before ++ load_model m :: after) = true /\
               (confirmed' <> [] ->
                confirmed <> [] \/ exists p, e = os_path_exists p true)).
    { destruct e; simpl in Hok;
        try (exists confirmed; split; [exact Hok | tauto]).
      - destruct answer.
        + exists (p :: confirmed). split; [exact Hok|].
          intros _. right. exists p. reflexivity.
        + exists confirmed. split; [exact Hok | tauto].
      - destruct confirmed as [|c confirmed]; [discriminate|].
        exists (c :: confirmed). split; [exact Hok | tauto].
      - apply andb_true_iff in Hok. exists confirmed. split; tauto. }
    destruct Hstep as [confirmed' [Hok' Hconf]].
    destruct (IH _ confirmed' Hok' eq_refl) as [Hin | [p Hin]].
    + destruct (Hconf Hin) as [H | [p ->]];
        [left; exact H | right; exists p; left; reflexivity].
    + right. exists p. right. exact Hin.
Qed.

Lemma checked_before_use_main (sv : Services) (page : widgets) (fs : filesystem) :
  checked_before_use [] (trace (main sv page fs)) = true.
Proof.
  destruct (button page) eqn:Hb;
    [|rewrite main_button_not_pressed by assumption; reflexivity].
  destruct (text_input page) as [|c url] eqn:Hu;
    [rewrite main_without_url by assumption; reflexivity|].
  assert (Hne : text_input page <> []) by (rewrite Hu; discriminate).
  destruct (extract_video_id (text_input page)) as [video_id|e] eqn:Hid;
    [|rewrite (main_resolver_raises sv page fs e) by assumption; reflexivity].
  destruct (truthy video_id) eqn:Ht;
    [|rewrite (main_without_id sv page fs video_id) by assumption; reflexivity].
  destruct video_id as [[|x video_id]|]; try discriminate.
  rewrite (main_with_id sv page fs (x :: video_id)) by (assumption || discriminate).
  destruct (download_audio_trace sv (text_input page) (u "audios")
              ((x :: video_id) ++ u ".mp3") fs) as [opts Hdl].
  destruct (download_audio _ _ _ _ _) as [[[]|e] fs1 t1]; cbn [trace] in *.
  - destruct (path_exists fs1 _);
      [|destruct Hdl as [-> | ->]; reflexivity].
    pose proof (transcribe_audio_trace sv (audio_path_of (x :: video_id))
                  (model_str (model_select page))
                  (language_str (language_select page)) fs1) as Htr.
    destruct (transcribe_audio _ _ _ _ _) as [[transcription|e] fs2 t2];
      cbn [trace] in *; unfold transcription_shown;
      destruct Hdl as [-> | ->]; destruct Htr as [-> | ->];
      try destruct (Str.contains _ _);
      cbn [app page_header id_shown audio_found checked_before_use Str.mem existsb];
      rewrite ?equal_refl; reflexivity.
  - destruct Hdl as [-> | ->]; reflexivity.
Qed.

(** [C4] When [download_audio] has returned and the audio file is not on
    the disk it leaves, [main] ends with the download-failed message and
    calls the transcriber at no point; and in every run, a call to
    [transcribe] on a path comes after a check that this path exists
    which answered [true], and a call to [load_model] comes after such a
    check. *)
Theorem main_transcribes_only_existing_audio (sv : Services) (page : widgets)
    (fs : filesystem) :
  (forall video_id,
      button page = true ->
      text_input page <> [] ->
      extract_video_id (text_input page) = Returned (Some video_id) ->
      video_id <> [] ->
      let acquired :=
        download_audio sv (text_input page) (u "audios") (video_id ++ u ".mp3") fs in
      value acquired = Returned tt ->
      path_exists (disk acquired) (audio_path_of video_id) = false ->
      main sv page fs =
        {| value := Returned tt; disk := disk acquired;
           trace := page_header ++ id_shown video_id ++ trace acquired ++
                    [os_path_exists (audio_path_of video_id) false;
                     st_error msg_no_audio] |} /\
      existsb is_transcriber_call (trace (main sv page fs)) = false) /\
  (forall before model_name audio_path language after,
      trace (main sv page fs) =
        before ++ transcribe model_name audio_path language :: after ->
      In (os_path_exists audio_path true) before) /\
  (forall before model_name after,
      trace (main sv page fs) = before ++ load_model model_name :: after ->
      exists audio_path, In (os_path_exists audio_path true) before).
Proof.
  split; [|split].
  - intros video_id Hb Hu Hid Hne acquired Hvalue Hexists.
    rewrite (main_with_id sv page fs video_id) by assumption.
    destruct (download_audio_trace sv (text_input page) (u "audios")
                (video_id ++ u ".mp3") fs) as [opts Hdl].
    fold acquired in Hdl |- *.
    destruct acquired as [v fs1 t1]. cbn [value disk trace] in *.
    subst v. rewrite Hexists. split; [reflexivity|].
    cbn [trace]. destruct Hdl as [-> | ->]; reflexivity.
  - intros before model_name audio_path language after Htrace.
    destruct (checked_before_transcribe _ before after model_name audio_path
                language [] (checked_before_use_main sv page fs) Htrace)
      as [[] | Hin].
    exact Hin.
  - intros before model_name after Htrace.
    destruct (checked_before_load_model _ before after model_name
                [] (checked_before_use_main sv page fs) Htrace)
      as [Hne | Hin]; [contradiction | exact Hin].
Qed.

(** A download service that returns without writing the file. *)
Lemma main_transcribes_only_existing_audio_witness :
  trace (main (Fake.services Fake.ydl_idle (u "hola"))
              (Fake.submit "https://youtu.be/abc123") Fake.empty_disk)
  = page_header ++ id_shown (u "abc123") ++
    trace (download_audio (Fake.services Fake.ydl_idle (u "hola"))
             (chars "https://youtu.be/abc123") (u "audios")
             (u "abc123" ++ u ".mp3") Fake.empty_disk) ++
    [os_path_exists (audio_path_of (u "abc123")) false; st_error msg_no_audio]
  /\
  In (os_path_exists (u "audios/abc123.mp3") true)
     (firstn 11 (trace (main (Fake.services Fake.ydl_writes (u "hola"))
                             (Fake.submit "https://youtu.be/abc123")
                             Fake.empty_disk))).
Proof.
  split.
  - apply (f_equal trace
             (proj1 (proj1 (main_transcribes_only_existing_audio
                              (Fake.services Fake.ydl_idle (u "hola"))
                              (Fake.submit "https://youtu.be/abc123")
                              Fake.empty_disk)
                       (u "abc123") eq_refl
                       ltac:(discriminate) ltac:(vm_compute; reflexivity)
                       ltac:(discriminate) ltac:(vm_compute; reflexivity)
                       ltac:(vm_compute; reflexivity)))).
  - apply (proj1 (proj2 (main_transcribes_only_existing_audio
                    (Fake.services Fake.ydl_writes (u "hola"))
                    (Fake.submit "https://youtu.be/abc123") Fake.empty_disk))
             _ (u "base") (u "audios/abc123.mp3") (u "es")
             [st_subheader (utf8 "Transcripción:"); st_write (u "hola");
              st_download_button (utf8 "Descargar Transcripción") (u "hola")
                (u "abc123" ++ u "_transcription.txt") (u "text/plain")]).
    vm_compute. reflexivity.
Defined.

(** A download that raises leaves [main] with the exception. *)
Lemma main_download_raises (sv : Services) (page : widgets) (fs : filesystem)
    (video_id : ustr) (e : exn) :
  button page = true ->
  text_input page <> [] ->
  extract_video_id (text_input page) = Returned (Some video_id) ->
  video_id <> [] ->
  let acquired :=
    download_audio sv (text_input page) (u "audios") (video_id ++ u ".mp3") fs in
  value acquired = Raised e ->
  main sv page fs =
    {| value := Raised e; disk := disk acquired;
       trace := page_header ++ id_shown video_id ++ trace acquired |}.
Proof.
  intros Hb Hu Hid Hne acquired Hvalue.
  rewrite (main_with_id sv page fs video_id) by assumption.
  fold acquired. destruct acquired as [v fs1 t1]. cbn [value disk trace] in *.
  subst v. reflexivity.
Qed.

(** [C1] On [https://youtu.be/abc123], with a download service that
    raises, the exception is not turned into a message: it leaves [main],
    and no call to [st.error] has been made. *)
Theorem main_lets_download_error_out :
  let run := main (Fake.services Fake.ydl_raises (u "hola"))
                  (Fake.submit "https://youtu.be/abc123") Fake.empty_disk in
  value run = Raised Fake.DownloadError /\
  existsb is_st_error (trace run) = false /\
  nth_error (trace run) 5 = Some (os_makedirs (u "audios")) /\
  List.length (trace run) = 7.
Proof. repeat split; vm_compute; reflexivity. Qed.

(** ** The resolving stage *)

(** [C9] (amended) When the button is pressed on a URL that is not empty
    and on which [extract_video_id] returns [None], [main] shows the
    identifier-not-extractable message and stops: the disk is the one it
    started from, and neither [os.makedirs] nor the download service has
    been called. *)
Theorem main_halts_at_resolving (sv : Services) (page : widgets) (fs : filesystem) :
  button page = true ->
  text_input page <> [] ->
  extract_video_id (text_input page) = Returned None ->
  main sv page fs =
    {| value := Returned tt; disk := fs;
       trace := page_header ++ [st_error msg_no_id] |}.
Proof.
  intros Hb Hu Hid. apply (main_without_id sv page fs None); auto.
Qed.

Lemma main_halts_at_resolving_witness :
  main (Fake.services Fake.ydl_writes (u "hola"))
       (Fake.submit "https://example.com/") Fake.empty_disk =
    {| value := Returned tt; disk := Fake.empty_disk;
       trace := page_header ++ [st_error msg_no_id] |}.
Proof.
  apply (main_halts_at_resolving (Fake.services Fake.ydl_writes (u "hola"))
           (Fake.submit "https://example.com/") Fake.empty_disk).
  - reflexivity.
  - discriminate.
  - vm_compute. reflexivity.
Defined.

(** On the empty URL [extract_video_id] returns [None] too, but [main]
    does not call it: the page shows the warning that asks for a URL, not
    the identifier-not-extractable message. *)
Lemma main_empty_url_counterexample :
  extract_video_id (chars "") = Returned None /\
  trace (main (Fake.services Fake.ydl_writes (u "hola"))
              (Fake.submit "") Fake.empty_disk)
    = page_header ++ [st_warning msg_no_url] /\
  ~ In (st_error msg_no_id)
       (trace (main (Fake.services Fake.ydl_writes (u "hola"))
                    (Fake.submit "") Fake.empty_disk)).
Proof.
  split; [vm_compute; reflexivity|].
  split; [reflexivity|].
  cbn. intros [H | [H | [H | []]]]; discriminate.
Qed.

Lemma main_resolution_shown (sv : Services) (page : widgets) (fs : filesystem) :
  button page = true ->
  nth_error (trace (main sv page fs)) 2 = resolution_shown (text_input page).
Proof.
  intros Hb. unfold resolution_shown.
  destruct (text_input page) as [|c url] eqn:Hu;
    [rewrite main_without_url by assumption; reflexivity|].
  assert (Hne : text_input page <> []) by (rewrite Hu; discriminate).
  rewrite <- Hu.
  destruct (extract_video_id (text_input page)) as [video_id|e] eqn:Hid;
    [|rewrite (main_resolver_raises sv page fs e) by assumption; reflexivity].
  destruct (truthy video_id) eqn:Ht;
    [|rewrite (main_without_id sv page fs video_id) by assumption; reflexivity].
  destruct video_id as [[|x video_id]|]; try discriminate.
  rewrite (main_with_id sv page fs (x :: video_id)) by (assumption || discriminate).
  destruct (download_audio _ _ _ _ _) as [[[]|e] fs1 t1]; [|reflexivity].
  destruct (path_exists fs1 _); [|reflexivity].
  destruct (transcribe_audio _ _ _ _ _) as [[transcription|e] fs2 t2]; reflexivity.
Qed.

(** [C7] [extract_video_id] is a function of the URL: two calls on the
    same string give the same result; and two runs of [main] on the same
    URL, whatever the services, the disk and the selections, show the same
    outcome of the resolution. *)
Theorem extract_video_id_deterministic (url : str) :
  (forall r1 r2,
      extract_video_id url = r1 -> extract_video_id url = r2 -> r1 = r2) /\
  (forall sv1 sv2 page1 page2 fs1 fs2,
      text_input page1 = url -> text_input page2 = url ->
      button page1 = true -> button page2 = true ->
      nth_error (trace (main sv1 page1 fs1)) 2 =
      nth_error (trace (main sv2 page2 fs2)) 2).
Proof.
  split.
  - intros r1 r2 H1 H2. congruence.
  - intros sv1 sv2 page1 page2 fs1 fs2 Hu1 Hu2 Hb1 Hb2.
    rewrite !main_resolution_shown by assumption. congruence.
Qed.

(** Two runs on [https://youtu.be/abc123]: one with a download service
    that works, Spanish and the base model on an empty disk, one with a
    download service that raises, English and the tiny model on a disk
    that has the file. *)
Lemma extract_video_id_deterministic_witness :
  nth_error (trace (main (Fake.services Fake.ydl_writes (u "hola"))
                         (Fake.submit "https://youtu.be/abc123")
                         Fake.empty_disk)) 2 =
  nth_error (trace (main (Fake.services Fake.ydl_raises (u "hello"))
                         {| text_input := chars "https://youtu.be/abc123";
                            language_select := en; model_select := tiny;
                            button := true |}
                         (fun p => if Str.equal p (u "audios/abc123.mp3")
                                   then Some File else None))) 2
  /\ extract_video_id (chars "https://youtu.be/abc123") = Returned (Some (u "abc123")).
Proof.
  split.
  - apply (proj2 (extract_video_id_deterministic (chars "https://youtu.be/abc123")));
      reflexivity.
  - apply (proj1 (extract_video_id_deterministic (chars "https://youtu.be/abc123"))
             (extract_video_id (chars "https://youtu.be/abc123"))
             (Returned (Some (u "abc123")))).
    + reflexivity.
    + vm_compute. reflexivity.
Defined.

(** ** The names of the artifacts *)

(** For an identifier that does not begin with [/], the audio path is
    [audios/<id>.mp3]. *)
Lemma audio_path_in_working_dir (video_id : ustr) :
  Str.startswith video_id (u "/") = false ->
  audio_path_of video_id = u "audios/" ++ video_id ++ u ".mp3".
Proof.
  intros Hid. unfold audio_path_of, os_path_join.
  assert (Hname : Str.startswith (video_id ++ u ".mp3") (u "/") = false).
  { change (u "/") with [47%N] in *. unfold Str.startswith in *.
    destruct video_id as [|c video_id]; [reflexivity|].
    simpl in *. destruct c as [|q]; [reflexivity|].
    destruct (47 =? q)%positive; [discriminate | reflexivity]. }
  rewrite Hname. reflexivity.
Qed.

(** [C8] The URL [https://www.youtube.com/watch?v=/etc/x] resolves to the
    identifier [/etc/x]; the audio path [main] hands to the download
    service and then checks is [/etc/x.mp3], outside the working
    directory, and not [audios//etc/x.mp3]; the transcription is offered
    as [/etc/x_transcription.txt], of type [text/plain]. *)
Theorem audio_path_leaves_working_dir :
  let url := "https://www.youtube.com/watch?v=/etc/x"%string in
  let run := main (Fake.services Fake.ydl_writes (u "hola"))
                  (Fake.submit url) Fake.empty_disk in
  extract_video_id (chars url) = Returned (Some (u "/etc/x")) /\
  audio_path_of (u "/etc/x") = u "/etc/x.mp3" /\
  option_map (fun e => match e with
                       | YoutubeDL_download opts _ => outtmpl opts
                       | _ => []
                       end) (nth_error (trace run) 6) = Some (u "/etc/x.mp3") /\
  nth_error (trace run) 7 = Some (os_path_exists (u "/etc/x.mp3") true) /\
  path_exists (disk run) (u "audios//etc/x.mp3") = false /\
  nth_error (trace run) 14 =
    Some (st_download_button (utf8 "Descargar Transcripción") (u "hola")
            (u "/etc/x_transcription.txt") (u "text/plain")).
Proof. repeat split; vm_compute; reflexivity. Qed.

(** ** The classification of the transcription *)

Section ContainsFacts.
Context {A : Type} `{Eqb A}.

Lemma startswith_app (p s : list A) : Str.startswith (p ++ s) p = true.
Proof.
  unfold Str.startswith. induction p as [|x p IH]; simpl.
  - reflexivity.
  - rewrite eqb_refl. exact IH.
Qed.

Lemma startswith_shorter (a b s : list A) :
  Str.startswith s (a ++ b) = true -> Str.startswith s a = true.
Proof.
  unfold Str.startswith. revert s.
  induction a as [|x a IH]; intros s; simpl.
  - reflexivity.
  - destruct s as [|y s]; [discriminate|].
    destruct (eqb x y); [apply IH | discriminate].
Qed.

Lemma contains_shorter (a b s : list A) :
  Str.contains (a ++ b) s = true -> Str.contains a s = true.
Proof.
  induction s as [|y s IH]; simpl; rewrite !orb_true_iff.
  - intros [Hs | Hf]; [left | discriminate].
    exact (startswith_shorter a b [] Hs).
  - intros [Hs | Hc]; [left | right; exact (IH Hc)].
    exact (startswith_shorter a b (y :: s) Hs).
Qed.

Lemma contains_at_start (p s : list A) : Str.contains p (p ++ s) = true.
Proof.
  destruct (p ++ s) eqn:E; simpl; rewrite <- E, startswith_app; reflexivity.
Qed.
End ContainsFacts.

Lemma prefix_is_marker_colon_space :
  transcription_error_prefix = transcription_error_marker ++ u ": ".
Proof. vm_compute. reflexivity. Qed.

(** [C10] (amended) The failure of a transcription is a text that begins
    with [Error durante la transcripción: ]; once the audio file is
    there, [main] offers the transcription exactly when the marker
    [Error durante la transcripción], the prefix without its colon and
    space, occurs nowhere in the text [transcribe_audio] returned, and
    shows the text as an error otherwise; so a text that contains the
    prefix, and a genuine transcription that contains the marker, is
    shown as an error. *)
Theorem main_classifies_by_marker (sv : Services) (page : widgets)
    (fs : filesystem) (video_id : ustr) :
  button page = true ->
  text_input page <> [] ->
  extract_video_id (text_input page) = Returned (Some video_id) ->
  video_id <> [] ->
  let acquired :=
    download_audio sv (text_input page) (u "audios") (video_id ++ u ".mp3") fs in
  value acquired = Returned tt ->
  path_exists (disk acquired) (audio_path_of video_id) = true ->
  let transcribed :=
    transcribe_audio sv (audio_path_of video_id) (model_str (model_select page))
                     (language_str (language_select page)) (disk acquired) in
  exists text,
    value transcribed = Returned text /\
    (forall e,
        fst (whisper_load_model sv (model_str (model_select page)) (disk acquired))
          = Raised e ->
        text = transcription_error_prefix ++ exn_str e) /\
    (forall msg,
        Str.startswith (transcription_error_prefix ++ msg) transcription_error_prefix = true /\
        Str.contains transcription_error_marker (transcription_error_prefix ++ msg) = true) /\
    (Str.contains transcription_error_prefix text = true ->
     Str.contains transcription_error_marker text = true) /\
    main sv page fs =
      {| value := Returned tt; disk := disk transcribed;
         trace := page_header ++ id_shown video_id ++ trace acquired ++
                  audio_found video_id ++ trace transcribed ++
                  if Str.contains transcription_error_marker text
                  then [ st_error text ]
                  else [ st_subheader (utf8 "Transcripción:");
                         st_write text;
                         st_download_button (utf8 "Descargar Transcripción") text
                           (video_id ++ u "_transcription.txt") (u "text/plain") ] |}.
Proof.
  intros Hb Hu Hid Hne acquired Hvalue Hexists transcribed.
  assert (Hreturns : exists text,
             value transcribed = Returned text /\
             (forall e,
                 fst (whisper_load_model sv (model_str (model_select page))
                        (disk acquired)) = Raised e ->
                 text = transcription_error_prefix ++ exn_str e)).
  { unfold transcribed, transcribe_audio. run_monad.
    destruct (whisper_load_model sv _ (disk acquired)) as [[[]|e] fs1];
      cbn [fst snd].
    - destruct (model_transcribe sv _ _ _ fs1) as [[heard|e] fs2];
        cbn [fst snd]; eexists; (split; [reflexivity|]); intros; congruence.
    - eexists. split; [reflexivity|]. intros; congruence. }
  destruct Hreturns as [text [Htext Hload]].
  exists text. split; [exact Htext|]. split; [exact Hload|].
  split; [|split].
  - intros msg. split; [apply startswith_app|].
    rewrite prefix_is_marker_colon_space, <- app_assoc. apply contains_at_start.
  - rewrite prefix_is_marker_colon_space. apply contains_shorter.
  - rewrite (main_with_id sv page fs video_id) by assumption.
    fold acquired. destruct acquired as [v fs1 t1]. cbn [value disk trace] in *.
    subst v. rewrite Hexists. fold transcribed.
    destruct transcribed as [v fs2 t2]. cbn [value disk trace] in *.
    subst v. reflexivity.
Qed.

(** A run in which the model does not load, and a run in which the
    recognition service hears a sentence that contains the marker. *)
Lemma main_classifies_by_marker_witness :
  nth_error
    (trace (main {| ydl_download := Fake.ydl_writes;
                    whisper_load_model := Fake.load_raises;
                    model_transcribe := Fake.hears (u "hola") |}
                 (Fake.submit "https://youtu.be/abc123") Fake.empty_disk)) 11
  = Some (st_error (transcription_error_prefix ++ u "Model not found")) /\
  nth_error
    (trace (main (Fake.services Fake.ydl_writes
                    (utf8 "Dijo: Error durante la transcripción del acta."))
                 (Fake.submit "https://youtu.be/abc123") Fake.empty_disk)) 12
  = Some (st_error (utf8 "Dijo: Error durante la transcripción del acta.")).
Proof.
  split.
  - destruct (main_classifies_by_marker
                {| ydl_download := Fake.ydl_writes;
                   whisper_load_model := Fake.load_raises;
                   model_transcribe := Fake.hears (u "hola") |}
                (Fake.submit "https://youtu.be/abc123") Fake.empty_disk
                (u "abc123") eq_refl
                ltac:(discriminate) ltac:(vm_compute; reflexivity)
                ltac:(discriminate) ltac:(vm_compute; reflexivity)
                ltac:(vm_compute; reflexivity))
      as [text [_ [Hload [_ [_ Hmain]]]]].
    rewrite Hmain.
    rewrite (Hload (Exn "RuntimeError" (u "Model not found")) eq_refl).
    vm_compute. reflexivity.
  - destruct (main_classifies_by_marker
                (Fake.services Fake.ydl_writes
                   (utf8 "Dijo: Error durante la transcripción del acta."))
                (Fake.submit "https://youtu.be/abc123") Fake.empty_disk
                (u "abc123") eq_refl
                ltac:(discriminate) ltac:(vm_compute; reflexivity)
                ltac:(discriminate) ltac:(vm_compute; reflexivity)
                ltac:(vm_compute; reflexivity))
      as [text [Htext [_ [_ [_ Hmain]]]]].
    rewrite Hmain.
    assert (Heard : text = utf8 "Dijo: Error durante la transcripción del acta.").
    { vm_compute in Htext. injection Htext as <-. vm_compute. reflexivity. }
    rewrite Heard. vm_compute. reflexivity.
Defined.

(** The recognition service hears [Error durante la transcripción.]: the
    text does not contain the prefix [Error durante la transcripción: ],
    it is what [transcribe_audio] returns, and [main] shows it as an
    error and offers no download. *)
Lemma main_marker_counterexample :
  let heard := utf8 "Error durante la transcripción." in
  let sv := Fake.services Fake.ydl_writes heard in
  let run := main sv (Fake.submit "https://youtu.be/abc123") Fake.empty_disk in
  Str.contains transcription_error_prefix heard = false /\
  value (transcribe_audio sv (u "audios/abc123.mp3") (u "base") (u "es")
                          (disk run)) = Returned heard /\
  nth_error (trace run) 12 = Some (st_error heard) /\
  List.length (trace run) = 13.
Proof. repeat split; vm_compute; reflexivity. Qed.

(* ================================================================== *)
(** * More properties of the resolver and of the pipeline *)
(* ================================================================== *)

Section PrefixFacts.
Context {A : Type} `{Eqb A}.

Lemma strip_prefix_app (p s : list A) : Str.strip_prefix p (p ++ s) = Some s.
Proof.
  induction p as [|x p IH]; simpl; [reflexivity|].
  rewrite eqb_refl. exact IH.
Qed.

Lemma strip_prefix_Some (p s r : list A) :
  Str.strip_prefix p s = Some r -> s = p ++ r.
Proof.
  revert s. induction p as [|x p IH]; intros s; simpl.
  - intros E. injection E as ->. reflexivity.
  - destruct s as [|y s]; [discriminate|].
    destruct (eqb x y) eqn:Exy; [|discriminate].
    apply eqb_eq in Exy. subst y. intros E. rewrite (IH _ E). reflexivity.
Qed.
End PrefixFacts.

Lemma star_greedy_suffix (k : cset) (s rest : str) :
  In rest (star_greedy k s) ->
  exists pre, s = pre ++ rest /\ forallb (in_cset k) pre = true.
Proof.
  induction s as [|c s IH]; simpl.
  - intros [<- | []]. exists []. split; reflexivity.
  - destruct (in_cset k c) eqn:Ec.
    + rewrite in_app_iff. intros [Hin | [<- | []]].
      * destruct (IH Hin) as [pre [-> Hpre]]. exists (c :: pre).
        split; [reflexivity|]. simpl. rewrite Ec. exact Hpre.
      * exists []. split; reflexivity.
    + intros [<- | []]. exists []. split; reflexivity.
Qed.

Lemma star_lazy_suffix (k : cset) (s rest : str) :
  In rest (star_lazy k s) ->
  exists pre, s = pre ++ rest /\ forallb (in_cset k) pre = true.
Proof.
  induction s as [|c s IH]; simpl.
  - intros [<- | []]. exists []. split; reflexivity.
  - intros [<- | Hin]; [exists []; split; reflexivity|].
    destruct (in_cset k c) eqn:Ec; [|destruct Hin].
    destruct (IH Hin) as [pre [-> Hpre]]. exists (c :: pre).
    split; [reflexivity|]. simpl. rewrite Ec. exact Hpre.
Qed.

Lemma run_seq_in (r1 r2 : regex) (s : str) (g : option str) (m : mstate) :
  In m (run (Seq r1 r2) (s, g)) ->
  exists m1, In m1 (run r1 (s, g)) /\ In m (run r2 m1).
Proof. simpl. rewrite in_flat_map. intros [m1 [H1 H2]]. exists m1. tauto. Qed.

Lemma run_suffix (r : regex) :
  forall s g m, In m (run r (s, g)) -> exists pre, s = pre ++ fst m.
Proof.
  induction r as [l|r1 IH1 r2 IH2|r IH|k|k|r IH|]; intros s g m Hin.
  - simpl in Hin. destruct (Str.strip_prefix l s) as [rest|] eqn:E; [|destruct Hin].
    destruct Hin as [<- | []]. exists l. apply strip_prefix_Some. exact E.
  - apply run_seq_in in Hin. destruct Hin as [[s1 g1] [H1 H2]].
    destruct (IH1 _ _ _ H1) as [pre1 ->]. destruct (IH2 _ _ _ H2) as [pre2 E].
    simpl in E. exists (pre1 ++ pre2). rewrite <- app_assoc, <- E. reflexivity.
  - simpl in Hin. apply in_app_iff in Hin. destruct Hin as [Hin | [<- | []]].
    + exact (IH _ _ _ Hin).
    + exists []. reflexivity.
  - simpl in Hin. destruct s as [|c s]; [destruct Hin|].
    destruct (in_cset k c); [|destruct Hin].
    apply in_map_iff in Hin. destruct Hin as [rest [<- Hin]].
    destruct (star_greedy_suffix _ _ _ Hin) as [pre [-> _]].
    exists (c :: pre). reflexivity.
  - simpl in Hin. apply in_map_iff in Hin. destruct Hin as [rest [<- Hin]].
    destruct (star_lazy_suffix _ _ _ Hin) as [pre [E _]]. exists pre. exact E.
  - simpl in Hin. apply in_map_iff in Hin. destruct Hin as [m1 [<- Hin]].
    exact (IH _ _ _ Hin).
  - simpl in Hin. destruct s; [|destruct Hin]. destruct Hin as [<- | []].
    exists []. reflexivity.
Qed.

Lemma consumed_app (id rest : str) : consumed (id ++ rest) rest = id.
Proof.
  unfold consumed. rewrite length_app, Nat.add_sub.
  rewrite <- (Nat.add_0_r (List.length id)), firstn_app_2. simpl.
  apply app_nil_r.
Qed.

Lemma id_group_captures_id : captures_id id_group.
Proof.
  intros s g m Hin. unfold id_group in Hin.
  destruct s as [|c s]; [destruct Hin|].
  cbn [run] in Hin.
  destruct (in_cset (NoneOf (chars "?&/")) c) eqn:Ec; [|destruct Hin].
  rewrite map_map in Hin. apply in_map_iff in Hin.
  destruct Hin as [rest [<- Hin]].
  destruct (star_greedy_suffix _ _ _ Hin) as [pre [-> Hpre]].
  exists [], (c :: pre). cbn [fst snd app]. repeat split.
  - f_equal. exact (consumed_app (c :: pre) rest).
  - discriminate.
  - cbn [forallb].
    change (id_char c) with (in_cset (NoneOf (chars "?&/")) c).
    rewrite Ec. exact Hpre.
Qed.

Lemma seq_captures_id (r1 r2 : regex) :
  captures_id r2 -> captures_id (Seq r1 r2).
Proof.
  intros H2 s g m Hin. apply run_seq_in in Hin.
  destruct Hin as [[s1 g1] [Hin1 Hin2]].
  destruct (run_suffix _ _ _ _ Hin1) as [pre1 ->]. simpl.
  destruct (H2 _ _ _ Hin2) as [pre [id [-> Hid]]].
  exists (pre1 ++ pre), id. rewrite <- app_assoc. tauto.
Qed.

Lemma regex_patterns_capture_id (p : regex) :
  In p regex_patterns -> captures_id p.
Proof.
  intros Hin. repeat (destruct Hin as [<- | Hin]);
    [ .. | destruct Hin ];
    repeat apply seq_captures_id; apply id_group_captures_id.
Qed.

Lemma re_match_captures (p : regex) (url : str) (m : match_object) :
  captures_id p ->
  re_match p url = Some m ->
  group_id m <> [] /\ forallb id_char (group_id m) = true /\
  exists pre post, url = pre ++ group_id m ++ post.
Proof.
  intros Hp. unfold re_match.
  destruct (run p (url, None)) as [|[rest g] l] eqn:E; [discriminate|].
  intros Hm. injection Hm as <-. cbn [group_id].
  destruct (Hp url None (rest, g)) as [pre [id [Hurl [Hg [Hne Hok]]]]].
  { rewrite E. left. reflexivity. }
  cbn [fst snd] in *. subst g. repeat split; try assumption.
  exists pre, rest. exact Hurl.
Qed.

Lemma first_match_some (ps : list regex) (url id : str) :
  first_match ps url = Some id ->
  exists p m, In p ps /\ re_match p url = Some m /\ group_id m = id.
Proof.
  induction ps as [|p ps IH]; simpl; [discriminate|].
  destruct (re_match p url) as [m|] eqn:E.
  - intros Hid. injection Hid as <-. exists p, m. tauto.
  - intros Hid. destruct (IH Hid) as [q [m [Hq Hm]]]. exists q, m. tauto.
Qed.

(** [X1] When one of the five patterns matches, the identifier
    [extract_video_id] returns is a piece of the URL: it is not empty, it
    holds none of [?], [&] and [/], and the URL is some text, the
    identifier, and some text. *)
Theorem pattern_id_is_url_segment (url id : str) :
  first_match regex_patterns url = Some id ->
  extract_video_id url = Returned (Some (py id)) /\
  id <> [] /\ forallb id_char id = true /\
  exists pre post, url = pre ++ id ++ post.
Proof.
  intros Hid. split.
  - unfold extract_video_id. rewrite Hid. reflexivity.
  - destruct (first_match_some _ _ _ Hid) as [p [m [Hp [Hm <-]]]].
    exact (re_match_captures p url m (regex_patterns_capture_id p Hp) Hm).
Qed.

Lemma star_greedy_head (id tail : str) :
  forallb id_char id = true ->
  delimited tail ->
  exists others,
    star_greedy (NoneOf (chars "?&/")) (id ++ tail) = tail :: others.
Proof.
  intros Hid Htail. induction id as [|c id IH].
  - destruct Htail as [-> | [c [t [-> Hc]]]]; cbn [app star_greedy].
    + eexists. reflexivity.
    + change (in_cset (NoneOf (chars "?&/")) c) with (id_char c).
      rewrite Hc. eexists. reflexivity.
  - cbn [forallb] in Hid. apply andb_true_iff in Hid. destruct Hid as [Hc Hid].
    destruct (IH Hid) as [others E]. cbn [app star_greedy].
    change (in_cset (NoneOf (chars "?&/")) c) with (id_char c).
    rewrite Hc, E. eexists. reflexivity.
Qed.

(** [X2] Building a URL and resolving it gives the identifier back: for
    every identifier that is not empty and holds none of [?], [&], [/],
    written after [youtu.be/], [youtube.com/embed/], [youtube.com/v/] or
    [youtube.com/watch?v=], with or without the scheme and [www.], and
    followed by nothing or by one of these three characters,
    [extract_video_id] returns that identifier. *)
Theorem direct_shapes_round_trip (prefix shape id tail : str) :
  In prefix optional_prefixes ->
  In shape direct_shapes ->
  id <> [] ->
  forallb id_char id = true ->
  delimited tail ->
  extract_video_id (prefix ++ shape ++ id ++ tail) = Returned (Some (py id)).
Proof.
  intros Hprefix Hshape Hne Hid Htail.
  destruct id as [|c id]; [contradiction|].
  cbn [forallb] in Hid. apply andb_true_iff in Hid. destruct Hid as [Hc Hid].
  destruct (star_greedy_head id tail Hid Htail) as [others Hstar].
  unfold extract_video_id.
  assert (Hfirst : first_match regex_patterns (prefix ++ shape ++ (c :: id) ++ tail)
                   = Some (c :: id)).
  { unfold regex_patterns, pattern_short, pattern_embed, pattern_v,
      pattern_watch, pattern_watch_any_v, scheme_www, id_group, first_match, re_match.
    unfold id_char in Hc.
    change (negb (Str.has c (chars "?&/"))) with (in_cset (NoneOf (chars "?&/")) c) in Hc.
    remember (NoneOf (chars "?&/")) as k eqn:Hk in *.
    unfold optional_prefixes, direct_shapes in *.
    cbn [map In] in Hprefix, Hshape.
    repeat (destruct Hprefix as [<- | Hprefix]); [ .. | destruct Hprefix ];
      (repeat (destruct Hshape as [<- | Hshape]); [ .. | destruct Hshape ]);
      unfold chars; cbn -[in_cset star_greedy consumed];
      rewrite Hc; cbn -[in_cset star_greedy consumed];
      first [rewrite Hstar | match goal with |- ?G => idtac "FAIL" G end; fail 1];
      cbn -[in_cset star_greedy consumed];
      rewrite (consumed_app (c :: id) tail : consumed (c :: id ++ tail) tail = c :: id);
      reflexivity. }
  rewrite Hfirst. reflexivity.
Qed.

Lemma run_id_group_head (id tail : str) (g : option str) :
  id <> [] ->
  forallb id_char id = true ->
  delimited tail ->
  exists others, run id_group (id ++ tail, g) = (tail, Some id) :: others.
Proof.
  intros Hne Hid Htail. destruct id as [|c id]; [contradiction|].
  cbn [forallb] in Hid. apply andb_true_iff in Hid. destruct Hid as [Hc Hid].
  destruct (star_greedy_head id tail Hid Htail) as [others Hstar].
  unfold id_group. cbn [run app].
  change (in_cset (NoneOf (chars "?&/")) c) with (id_char c).
  rewrite Hc, Hstar. cbn [map fst].
  rewrite (consumed_app (c :: id) tail : consumed (c :: id ++ tail) tail = c :: id).
  eexists. reflexivity.
Qed.

Section PrefixFacts2.
Context {A : Type} `{Eqb A}.

Lemma strip_prefix_None_app (p a b : list A) :
  List.length p <= List.length a ->
  Str.strip_prefix p a = None ->
  Str.strip_prefix p (a ++ b) = None.
Proof.
  revert a. induction p as [|x p IH]; intros a Hlen; simpl.
  - discriminate.
  - destruct a as [|y a]; simpl in *; [inversion Hlen|].
    destruct (eqb x y); [|reflexivity].
    apply IH. apply le_S_n. exact Hlen.
Qed.
End PrefixFacts2.

Lemma run_lit_seq (p : str) (r : regex) (s : list ascii) (g : option str) :
  run (Seq (Lit p) r) (p ++ s, g) = run r (s, g) ++ [].
Proof. cbn [run]. rewrite strip_prefix_app. reflexivity. Qed.

Lemma run_lit_seq_fail (p : str) (r : regex) (s : str) (g : option str) :
  Str.strip_prefix p s = None -> run (Seq (Lit p) r) (s, g) = [].
Proof. intros E. cbn [run]. rewrite E. reflexivity. Qed.

Lemma run_lazy_seq (k : cset) (r : regex) (s : list ascii) (g : option str) :
  run (Seq (LazyStar k) r) (s, g)
  = flat_map (run r) (map (fun rest : str => (rest, g)) (star_lazy k s)).
Proof. reflexivity. Qed.

Lemma star_lazy_first (k : cset) (s : str) :
  exists longer, star_lazy k s = s :: longer.
Proof. destruct s; eexists; reflexivity. Qed.

Lemma lazy_star_finds_v (q id tail : str) (g : option str) :
  forallb (in_cset Dot) q = true ->
  Str.contains (chars "&v=") (q ++ chars "&v") = false ->
  id <> [] -> forallb id_char id = true -> delimited tail ->
  exists more,
    flat_map (run (Seq (Lit (chars "&v=")) id_group))
      (map (fun rest : str => (rest, g))
           (star_lazy Dot (q ++ chars "&v=" ++ id ++ tail)))
    = (tail, Some id) :: more.
Proof.
  intros Hdot Hq Hne Hid Htail.
  destruct (run_id_group_head id tail g Hne Hid Htail) as [others Hrun].
  induction q as [|c q IH].
  - cbn [app].
    destruct (star_lazy_first Dot (chars "&v=" ++ id ++ tail)) as [longer ->].
    eexists. cbn [map flat_map]. rewrite run_lit_seq, Hrun. reflexivity.
  - cbn [forallb] in Hdot. apply andb_true_iff in Hdot. destruct Hdot as [Hc Hdot].
    cbn [app Str.contains] in Hq. apply orb_false_iff in Hq. destruct Hq as [Hstart Hq].
    destruct (IH Hdot Hq) as [more Hmore].
    eexists. cbn [app star_lazy]. rewrite Hc. cbn [map flat_map]. rewrite Hmore.
    assert (E : Str.strip_prefix (chars "&v=") (c :: q ++ chars "&v=" ++ id ++ tail) = None).
    { replace (c :: q ++ chars "&v=" ++ id ++ tail)
        with ((c :: q ++ chars "&v") ++ ("="%char :: id ++ tail)).
      - apply strip_prefix_None_app.
        + cbn. rewrite length_app. cbn. rewrite Nat.add_comm. cbn.
          repeat apply le_n_S. apply Nat.le_0_l.
        + unfold Str.startswith in Hstart.
          destruct (Str.strip_prefix (chars "&v=") (c :: q ++ chars "&v"));
            [discriminate | reflexivity].
      - cbn [app]. rewrite <- app_assoc. reflexivity. }
    rewrite (run_lit_seq_fail _ id_group _ g E). reflexivity.
Qed.

Lemma strip_v_eq_None (q rest : str) :
  Str.startswith q (chars "v=") = false ->
  Str.strip_prefix (chars "v=") (q ++ "&"%char :: rest) = None.
Proof.
  unfold Str.startswith, chars. cbn [list_ascii_of_string].
  destruct q as [|a [|b q]]; cbn [app Str.strip_prefix].
  - intros _. reflexivity.
  - intros _. destruct (eqb "v"%char a); reflexivity.
  - destruct (eqb "v"%char a); [|reflexivity].
    destruct (eqb "="%char b); [discriminate | reflexivity].
Qed.

Section PrefixFacts3.
Context {A : Type} `{Eqb A}.
Lemma strip_prefix_app_app (a b s : list A) :
  Str.strip_prefix (a ++ b) (a ++ s) = Str.strip_prefix b s.
Proof.
  induction a as [|x a IH]; simpl; [reflexivity|].
  rewrite eqb_refl. exact IH.
Qed.
End PrefixFacts3.

(** The two optional groups in front of a pattern consume the prefix, and
    no other way through them reaches a literal that begins with [y]. *)
Lemma run_optional_prefix (prefix L s : str) (r : regex) (g : option str) :
  In prefix optional_prefixes ->
  run (seq_of (scheme_www ++ [Lit ("y"%char :: L); r]))
      (prefix ++ "y"%char :: s, g)
  = run (Seq (Lit ("y"%char :: L)) r) ("y"%char :: s, g).
Proof.
  unfold optional_prefixes. cbn [map In].
  intros Hprefix.
  repeat (destruct Hprefix as [<- | Hprefix]); [ .. | destruct Hprefix ];
    unfold scheme_www, chars; cbn -[run]; cbn [run];
    cbn [Str.strip_prefix flat_map app eqb Eqb_ascii Ascii.eqb Bool.eqb];
    rewrite ?app_nil_r; reflexivity.
Qed.

(** [X3] The same for a [v] parameter that is not the first of the query:
    when the text between [watch?] and [&v=] has no newline, no [&v=]
    that begins inside it, and does not begin with [v=],
    [extract_video_id] returns the identifier that follows [&v=]. *)
Theorem later_v_round_trip (prefix q id tail : str) :
  In prefix optional_prefixes ->
  skipped_query q ->
  id <> [] ->
  forallb id_char id = true ->
  delimited tail ->
  extract_video_id
    (prefix ++ chars "youtube.com/watch?" ++ q ++ chars "&v=" ++ id ++ tail)
  = Returned (Some (py id)).
Proof.
  intros Hprefix [Hdot [Hq Hv]] Hne Hid Htail.
  unfold extract_video_id.
  set (rest := q ++ chars "&v=" ++ id ++ tail).
  assert (Hfirst : first_match regex_patterns
                     (prefix ++ chars "youtube.com/watch?" ++ rest) = Some id).
  { change (chars "youtube.com/watch?" ++ rest)
      with ("y"%char :: chars "outube.com/watch?" ++ rest).
    unfold regex_patterns, first_match, re_match.
    unfold pattern_short.
    change (chars "youtu.be/") with ("y"%char :: chars "outu.be/").
    rewrite (run_optional_prefix prefix _ _ id_group None Hprefix).
    rewrite run_lit_seq_fail by reflexivity.
    unfold pattern_embed.
    change (chars "youtube.com/embed/") with ("y"%char :: chars "outube.com/embed/").
    rewrite (run_optional_prefix prefix _ _ id_group None Hprefix).
    rewrite run_lit_seq_fail by reflexivity.
    unfold pattern_v.
    change (chars "youtube.com/v/") with ("y"%char :: chars "outube.com/v/").
    rewrite (run_optional_prefix prefix _ _ id_group None Hprefix).
    rewrite run_lit_seq_fail by reflexivity.
    unfold pattern_watch.
    change (chars "youtube.com/watch?v=") with ("y"%char :: chars "outube.com/watch?v=").
    rewrite (run_optional_prefix prefix _ _ id_group None Hprefix).
    rewrite run_lit_seq_fail.
    2:{ change ("y"%char :: chars "outube.com/watch?v=")
          with (chars "youtube.com/watch?" ++ chars "v=").
        change ("y"%char :: chars "outube.com/watch?" ++ rest)
          with (chars "youtube.com/watch?" ++ rest).
        rewrite strip_prefix_app_app. unfold rest.
        exact (strip_v_eq_None q (chars "v=" ++ id ++ tail) Hv). }
    unfold pattern_watch_any_v.
    change (seq_of (scheme_www ++
                    [Lit (chars "youtube.com/watch?"); LazyStar Dot;
                     Lit (chars "&v="); id_group]))
      with (seq_of (scheme_www ++
                    [Lit ("y"%char :: chars "outube.com/watch?");
                     Seq (LazyStar Dot) (Seq (Lit (chars "&v=")) id_group)])).
    rewrite (run_optional_prefix prefix _ _ _ None Hprefix).
    change ("y"%char :: chars "outube.com/watch?" ++ rest)
      with (("y"%char :: chars "outube.com/watch?") ++ rest).
    rewrite run_lit_seq, run_lazy_seq. unfold rest.
    destruct (lazy_star_finds_v q id tail None Hdot Hq Hne Hid Htail) as [more ->].
    reflexivity. }
  rewrite Hfirst. reflexivity.
Qed.

(** ** The exceptions of [extract_video_id] *)

Lemma check_bracketed_host_ValueError (h : str) (e : exn) :
  _check_bracketed_host h = Raised e -> exn_class e = "ValueError"%string.
Proof.
  unfold _check_bracketed_host, Ipaddress.ip_address.
  destruct (Str.startswith h (chars "v")).
  - destruct (re_match ipvfuture h); [discriminate|].
    intros E. injection E as <-. reflexivity.
  - destruct (Ipaddress.IPv4Address_ok h).
    + intros E. injection E as <-. reflexivity.
    + destruct (Ipaddress.IPv6Address_ok h); [discriminate|].
      intros E. injection E as <-. reflexivity.
Qed.

Lemma check_bracketed_netloc_ValueError (netloc : str) (e : exn) :
  _check_bracketed_netloc netloc = Raised e -> exn_class e = "ValueError"%string.
Proof.
  unfold _check_bracketed_netloc.
  destruct (Str.partition "["%char (Str.after_last "@"%char netloc))
    as [before [bracketed|]].
  - destruct before as [|b before];
      [|intros E; injection E as <-; reflexivity].
    destruct (Str.partition "]"%char bracketed) as [hostname after].
    destruct after as [[|c port]|].
    + apply check_bracketed_host_ValueError.
    + destruct (Ascii.eqb c ":");
        [apply check_bracketed_host_ValueError|].
      intros E. injection E as <-. reflexivity.
    + apply check_bracketed_host_ValueError.
  - apply check_bracketed_host_ValueError.
Qed.

Lemma urlparse_ValueError (url : str) (e : exn) :
  urlparse url = Raised e -> exn_class e = "ValueError"%string.
Proof.
  unfold urlparse.
  destruct (urlsplit url) as [r|e'] eqn:Hsplit.
  - destruct (_ && _); [destruct (_splitparams _)|]; discriminate.
  - intros E. injection E as <-. revert Hsplit. unfold urlsplit.
    destruct (split_scheme _) as [sch rest].
    destruct (Str.strip_prefix (chars "//") rest) as [after|].
    + destruct (splitnetloc after) as [netloc url'].
      destruct (_ || _).
      * intros E. injection E as <-. reflexivity.
      * destruct (_ && _).
        -- destruct (_check_bracketed_netloc netloc) as [[]|e''] eqn:Hcheck.
           ++ destruct (Str.partition "#"%char url') as [? [?|]];
                destruct (Str.partition "?"%char _) as [? [?|]]; discriminate.
           ++ intros E. injection E as <-.
              exact (check_bracketed_netloc_ValueError _ _ Hcheck).
        -- destruct (Str.partition "#"%char url') as [? [?|]];
             destruct (Str.partition "?"%char _) as [? [?|]]; discriminate.
    + destruct (Str.partition "#"%char rest) as [? [?|]];
        destruct (Str.partition "?"%char _) as [? [?|]]; discriminate.
Qed.

Section SplitFacts.
Context {A : Type} `{Eqb A}.

Lemma split_nonempty (c : A) (s : list A) :
  exists piece pieces, Str.split c s = piece :: pieces.
Proof.
  induction s as [|x s [piece [pieces IH]]]; simpl.
  - eexists _, _. reflexivity.
  - destruct (eqb x c); [eexists _, _; reflexivity|].
    rewrite IH. eexists _, _. reflexivity.
Qed.

Lemma split_piece_free (c : A) (s piece : list A) :
  In piece (Str.split c s) -> Str.has c piece = false.
Proof.
  revert piece. induction s as [|x s IH]; simpl; intros piece.
  - intros [<- | []]. reflexivity.
  - destruct (eqb x c) eqn:Exc.
    + intros [<- | Hin]; [reflexivity | exact (IH _ Hin)].
    + destruct (Str.split c s) as [|h t] eqn:Es.
      * intros [<- | []]. unfold Str.has. simpl.
        destruct (eqb c x) eqn:Ecx; [|reflexivity].
        apply eqb_eq in Ecx. subst x. rewrite eqb_refl in Exc. discriminate.
      * intros [<- | Hin]; [|apply IH; right; exact Hin].
        unfold Str.has. simpl.
        destruct (eqb c x) eqn:Ecx.
        -- apply eqb_eq in Ecx. subst x. rewrite eqb_refl in Exc. discriminate.
        -- apply (IH h). left. reflexivity.
Qed.
End SplitFacts.

(** Under [/embed/] or [/v/] the path has a piece of index 2, free of
    [/]. *)
Lemma path_segment_2_returns (p : ParseResult) (prefix : str) :
  prefix = chars "/embed/" \/ prefix = chars "/v/" ->
  Str.startswith (path p) prefix = true ->
  exists seg,
    path_segment_2 p = Returned (Some (py seg)) /\ Str.has "/"%char seg = false.
Proof.
  intros Hprefix Hstart. unfold Str.startswith in Hstart.
  destruct (Str.strip_prefix prefix (path p)) as [rest|] eqn:E; [|discriminate].
  apply strip_prefix_Some in E. unfold path_segment_2. rewrite E.
  destruct (split_nonempty "/"%char rest) as [piece [pieces Hsplit]].
  assert (Hfree : Str.has "/"%char piece = false).
  { apply (split_piece_free "/"%char rest). rewrite Hsplit. left. reflexivity. }
  exists piece. split; [|exact Hfree].
  destruct Hprefix as [-> | ->]; unfold chars; cbn; rewrite Hsplit; reflexivity.
Qed.

(** [X4] The only exception that leaves [extract_video_id] is the
    ValueError of [urlparse], on a URL that no pattern matches: the two
    indexings, [query_params.get('v', [None])[0]] and
    [parsed_url.path.split('/')[2]], never raise. *)
Theorem extract_video_id_raises_only_ValueError (url : str) (e : exn) :
  extract_video_id url = Raised e ->
  first_match regex_patterns url = None /\
  urlparse url = Raised e /\
  exn_class e = "ValueError"%string.
Proof.
  unfold extract_video_id, urlparse_fallback.
  destruct (first_match regex_patterns url); [discriminate|].
  destruct (urlparse url) as [p|e'] eqn:Hparse.
  - destruct (hostname_is_youtube p); [|discriminate].
    destruct (Str.equal (path p) (chars "/watch")).
    + rewrite get_v_parse_qs. discriminate.
    + destruct (Str.startswith (path p) (chars "/embed/")) eqn:He.
      * destruct (path_segment_2_returns p (chars "/embed/") (or_introl eq_refl) He)
          as [seg [-> _]]. discriminate.
      * destruct (Str.startswith (path p) (chars "/v/")) eqn:Hv; [|discriminate].
        destruct (path_segment_2_returns p (chars "/v/") (or_intror eq_refl) Hv)
          as [seg [-> _]]. discriminate.
  - intros E. injection E as <-. repeat split.
    exact (urlparse_ValueError url e' Hparse).
Qed.

(** ** URLs without brackets *)

Section HasFacts.
Context {A : Type} `{Eqb A}.



End HasFacts.







(** ** Identifiers that begin with a slash *)

Lemma code_slash (c : ascii) : code c = 47%N -> c = "/"%char.
Proof.
  intros E. unfold code in E.
  rewrite <- (ascii_N_embedding c), E. reflexivity.
Qed.

Lemma py_no_leading_slash (s : str) :
  Str.has "/"%char (firstn 1 s) = false ->
  Str.startswith (py s) (u "/") = false.
Proof.
  change (u "/") with [47%N]. unfold Str.startswith.
  destruct s as [|c s]; [reflexivity|].
  cbn [firstn Str.has existsb py map Str.strip_prefix].
  rewrite orb_false_r. intros Hc.
  destruct (eqb 47%N (code c)) eqn:E; [|reflexivity].
  apply eqb_eq in E. symmetry in E. apply code_slash in E. subst c.
  discriminate.
Qed.

Lemma has_first {A} `{Eqb A} (c : A) (s : list A) :
  Str.has c s = false -> Str.has c (firstn 1 s) = false.
Proof.
  destruct s as [|x s]; [intros _; reflexivity|].
  unfold Str.has. cbn [firstn existsb]. intros E.
  apply orb_false_iff in E. rewrite (proj1 E). reflexivity.
Qed.

(** [X6] The audio path of a resolved identifier is
    [audios/<id>.mp3], except when the identifier begins with [/]; and
    such an identifier only comes from the [v] parameter of a [/watch]
    URL that no pattern matched. *)
Theorem audio_path_outside_only_for_query_id (url : str) (video_id : ustr) :
  extract_video_id url = Returned (Some video_id) ->
  audio_path_of video_id = u "audios/" ++ video_id ++ u ".mp3" \/
  (Str.startswith video_id (u "/") = true /\
   first_match regex_patterns url = None /\
   exists p, urlparse url = Returned p /\ path p = chars "/watch" /\
             first_value (u "v") (parse_qsl (query p)) = Some video_id).
Proof.
  unfold extract_video_id, urlparse_fallback.
  destruct (first_match regex_patterns url) as [id|] eqn:Hre.
  - intros E. injection E as <-. left. apply audio_path_in_working_dir.
    destruct (first_match_some _ _ _ Hre) as [p [m [Hp [Hm <-]]]].
    destruct (re_match_captures p url m (regex_patterns_capture_id p Hp) Hm)
      as [Hne [Hok _]].
    apply py_no_leading_slash.
    destruct (group_id m) as [|c id]; [reflexivity|].
    cbn [forallb] in Hok. apply andb_true_iff in Hok. destruct Hok as [Hc _].
    unfold id_char in Hc. apply negb_true_iff in Hc.
    cbn [firstn]. unfold Str.has in *. cbn [existsb chars list_ascii_of_string] in *.
    rewrite orb_false_r.
    destruct (eqb "/"%char c) eqn:E; [|reflexivity].
    apply eqb_eq in E. subst c. cbn in Hc. discriminate.
  - destruct (urlparse url) as [p|e] eqn:Hparse; [|discriminate].
    destruct (hostname_is_youtube p); [|discriminate].
    destruct (Str.equal (path p) (chars "/watch")) eqn:Hwatch.
    + rewrite get_v_parse_qs. intros E. injection E as E.
      destruct (Str.startswith video_id (u "/")) eqn:Hslash.
      * right. split; [reflexivity|]. split; [reflexivity|].
        exists p. apply equal_eq in Hwatch. tauto.
      * left. apply audio_path_in_working_dir. exact Hslash.
    + assert (Hseg : forall prefix,
                 prefix = chars "/embed/" \/ prefix = chars "/v/" ->
                 Str.startswith (path p) prefix = true ->
                 path_segment_2 p = Returned (Some video_id) ->
                 audio_path_of video_id = u "audios/" ++ video_id ++ u ".mp3").
      { intros prefix Hprefix Hstart Hres.
        destruct (path_segment_2_returns p prefix Hprefix Hstart) as [seg [Hs Hfree]].
        rewrite Hs in Hres. injection Hres as <-.
        apply audio_path_in_working_dir, py_no_leading_slash, has_first.
        exact Hfree. }
      destruct (Str.startswith (path p) (chars "/embed/")) eqn:He.
      * intros E. left. exact (Hseg _ (or_introl eq_refl) He E).
      * destruct (Str.startswith (path p) (chars "/v/")) eqn:Hv; [|discriminate].
        intros E. left. exact (Hseg _ (or_intror eq_refl) Hv E).
Qed.

(** ** The exceptions of [main] *)

Lemma transcribe_audio_value (sv : Services) (p m l : ustr) (fs : filesystem) :
  exists text, value (transcribe_audio sv p m l fs) = Returned text.
Proof.
  unfold transcribe_audio. run_monad.
  destruct (whisper_load_model sv m fs) as [[[]|e] fs1]; cbn [fst snd].
  - destruct (model_transcribe sv m p l fs1) as [[t|e] fs2];
      eexists; reflexivity.
  - eexists. reflexivity.
Qed.

(** [X7] An exception leaves [main] exactly when the button was pressed
    on a URL that is not empty and either [extract_video_id] raised it,
    or the identifier is not empty and [download_audio] raised it; the
    transcription stage lets none out. *)
Theorem main_raises_iff (sv : Services) (page : widgets) (fs : filesystem) (e : exn) :
  value (main sv page fs) = Raised e <->
  button page = true /\ text_input page <> [] /\
  (extract_video_id (text_input page) = Raised e \/
   exists video_id,
     extract_video_id (text_input page) = Returned (Some video_id) /\
     video_id <> [] /\
     value (download_audio sv (text_input page) (u "audios")
              (video_id ++ u ".mp3") fs) = Raised e).
Proof.
  split.
  - destruct (button page) eqn:Hb;
      [|rewrite main_button_not_pressed by assumption; discriminate].
    destruct (text_input page) as [|c url] eqn:Hu;
      [rewrite main_without_url by assumption; discriminate|].
    assert (Hne : text_input page <> []) by (rewrite Hu; discriminate).
    rewrite <- Hu.
    destruct (extract_video_id (text_input page)) as [video_id|e'] eqn:Hid.
    + destruct (truthy video_id) eqn:Ht;
        [|rewrite (main_without_id sv page fs video_id) by assumption; discriminate].
      destruct video_id as [[|x video_id]|]; try discriminate.
      rewrite (main_with_id sv page fs (x :: video_id)) by (assumption || discriminate).
      intros Hmain. split; [reflexivity|]. split; [exact Hne|]. right.
      exists (x :: video_id). split; [reflexivity|]. split; [discriminate|].
      destruct (download_audio _ _ _ _ _) as [[[]|e1] fs1 t1]; [|exact Hmain].
      exfalso. destruct (path_exists fs1 _); [|discriminate].
      destruct (transcribe_audio_value sv (audio_path_of (x :: video_id))
                  (model_str (model_select page))
                  (language_str (language_select page)) fs1) as [text Ht2].
      destruct (transcribe_audio _ _ _ _ _) as [[t|e2] fs2 t2]; discriminate.
    + rewrite (main_resolver_raises sv page fs e') by assumption.
      intros Hmain. injection Hmain as ->. tauto.
  - intros [Hb [Hne [Hid | [video_id [Hid [Hv Hdl]]]]]].
    + rewrite (main_resolver_raises sv page fs e) by assumption. reflexivity.
    + rewrite (main_with_id sv page fs video_id) by assumption.
      destruct (download_audio _ _ _ _ _) as [v fs1 t1]. cbn [value] in Hdl.
      subst v. reflexivity.
Qed.

(** ** When the acquisition stage is reached *)

Lemma truthy_usable (video_id : option ustr) :
  truthy video_id = true <-> exists id, video_id = Some id /\ id <> [].
Proof.
  destruct video_id as [[|x id]|]; simpl; split; try discriminate.
  - intros [id [E Hne]]. injection E as <-. contradiction.
  - intros _. eexists. split; [reflexivity | discriminate].
  - reflexivity.
  - intros [id [E _]]. discriminate.
Qed.

(** [X8] [main] calls [os.makedirs('audios')] exactly when the button was
    pressed on a URL that resolves to an identifier that is not empty;
    in every other run (button not pressed, empty URL, resolver raising,
    [None] or the empty string as identifier) the disk is left as it was
    and neither the operating system nor a service is called. *)
Theorem main_reaches_acquisition_iff (sv : Services) (page : widgets)
    (fs : filesystem) :
  (In (os_makedirs (u "audios")) (trace (main sv page fs)) <-> has_usable_id page) /\
  (~ has_usable_id page ->
   disk (main sv page fs) = fs /\
   existsb is_outside_call (trace (main sv page fs)) = false).
Proof.
  unfold has_usable_id.
  destruct (button page) eqn:Hb.
  2:{ rewrite main_button_not_pressed by assumption. split; [split|].
      - cbn. intros [H | [H | []]]; discriminate.
      - intros [H _]. discriminate.
      - intros _. split; reflexivity. }
  destruct (text_input page) as [|c url] eqn:Hu.
  { rewrite main_without_url by assumption. split; [split|].
    - cbn. intros [H | [H | [H | []]]]; discriminate.
    - intros [_ [H _]]. contradiction.
    - intros _. split; reflexivity. }
  assert (Hne : text_input page <> []) by (rewrite Hu; discriminate).
  rewrite <- Hu.
  destruct (extract_video_id (text_input page)) as [video_id|e] eqn:Hid.
  2:{ rewrite (main_resolver_raises sv page fs e) by assumption. split; [split|].
      - cbn. intros [H | [H | []]]; discriminate.
      - intros [_ [_ [id [H _]]]]. discriminate.
      - intros _. split; reflexivity. }
  destruct (truthy video_id) eqn:Ht.
  2:{ rewrite (main_without_id sv page fs video_id) by assumption. split; [split|].
      - cbn. intros [H | [H | [H | []]]]; discriminate.
      - intros [_ [_ [id [E Hid']]]]. injection E as ->.
        assert (truthy (Some id) = true)
          by (apply truthy_usable; eexists; split; [reflexivity | exact Hid']).
        congruence.
      - intros _. split; reflexivity. }
  apply truthy_usable in Ht. destruct Ht as [id [-> Hid']].
  assert (Husable : true = true /\ text_input page <> [] /\
                    exists video_id, Returned (Some id) = Returned (Some video_id)
                                     /\ video_id <> []).
  { split; [reflexivity|]. split; [exact Hne|]. exists id. tauto. }
  split; [split; [intros _; exact Husable|intros _] | intros H; contradiction].
  rewrite (main_with_id sv page fs id) by assumption.
  destruct (download_audio_trace sv (text_input page) (u "audios")
              (id ++ u ".mp3") fs) as [opts Hdl].
  assert (Hin : In (os_makedirs (u "audios"))
                  (trace (download_audio sv (text_input page) (u "audios")
                            (id ++ u ".mp3") fs)))
    by (destruct Hdl as [-> | ->]; left; reflexivity).
  destruct (download_audio _ _ _ _ _) as [[[]|e] fs1 t1]; cbn [trace] in *.
  - destruct (path_exists fs1 _).
    + destruct (transcribe_audio _ _ _ _ _) as [[t|e] fs2 t2]; cbn [trace];
        rewrite !in_app_iff; tauto.
    + cbn [trace]. rewrite !in_app_iff. tauto.
  - rewrite !in_app_iff. tauto.
Qed.

(** ** The download button *)

(** [X9] Whenever [main] offers a download, the run ended normally, the
    data offered is the text shown by [st.write] and returned by
    [transcribe_audio], it does not contain the error marker, the file is
    named after the resolved identifier and the type is [text/plain]. *)
Theorem download_button_offers_shown_text (sv : Services) (page : widgets)
    (fs : filesystem) (label data file_name mime : ustr) :
  In (st_download_button label data file_name mime) (trace (main sv page fs)) ->
  value (main sv page fs) = Returned tt /\
  mime = u "text/plain" /\
  In (st_write data) (trace (main sv page fs)) /\
  Str.contains transcription_error_marker data = false /\
  exists video_id,
    extract_video_id (text_input page) = Returned (Some video_id) /\
    file_name = video_id ++ u "_transcription.txt" /\
    value (transcribe_audio sv (audio_path_of video_id)
             (model_str (model_select page)) (language_str (language_select page))
             (disk (download_audio sv (text_input page) (u "audios")
                      (video_id ++ u ".mp3") fs)))
      = Returned data.
Proof.
  destruct (button page) eqn:Hb.
  2:{ rewrite main_button_not_pressed by assumption.
      cbn. intros [H | [H | []]]; discriminate. }
  destruct (text_input page) as [|c url] eqn:Hu.
  { rewrite main_without_url by assumption.
    cbn. intros [H | [H | [H | []]]]; discriminate. }
  assert (Hne : text_input page <> []) by (rewrite Hu; discriminate).
  rewrite <- Hu.
  destruct (extract_video_id (text_input page)) as [video_id|e] eqn:Hid.
  2:{ rewrite (main_resolver_raises sv page fs e) by assumption.
      cbn. intros [H | [H | []]]; discriminate. }
  destruct (truthy video_id) eqn:Ht.
  2:{ rewrite (main_without_id sv page fs video_id) by assumption.
      cbn. intros [H | [H | [H | []]]]; discriminate. }
  apply truthy_usable in Ht. destruct Ht as [id [-> Hid']].
  rewrite (main_with_id sv page fs id) by assumption.
  destruct (download_audio_trace sv (text_input page) (u "audios")
              (id ++ u ".mp3") fs) as [opts Hdl].
  destruct (download_audio sv (text_input page) (u "audios") (id ++ u ".mp3") fs)
    as [[[]|e] fs1 t1] eqn:Edl; cbn [trace disk] in *.
  2:{ cbn [trace]. rewrite !in_app_iff.
      destruct Hdl as [-> | ->]; cbn;
        intuition discriminate. }
  destruct (path_exists fs1 _).
  2:{ cbn [trace]. rewrite !in_app_iff.
      destruct Hdl as [-> | ->]; cbn; intuition discriminate. }
  pose proof (transcribe_audio_trace sv (audio_path_of id)
                (model_str (model_select page))
                (language_str (language_select page)) fs1) as Htr.
  destruct (transcribe_audio _ _ _ _ _) as [[text|e] fs2 t2] eqn:Etr;
    cbn [trace value] in *.
  2:{ rewrite !in_app_iff.
      destruct Hdl as [-> | ->]; destruct Htr as [-> | ->]; cbn;
        intuition discriminate. }
  unfold transcription_shown.
  destruct (Str.contains transcription_error_marker text) eqn:Hmarker.
  { rewrite !in_app_iff.
    destruct Hdl as [-> | ->]; destruct Htr as [-> | ->]; cbn;
      intuition discriminate. }
  intros Hin.
  assert (Hbutton : st_download_button label data file_name mime =
                    st_download_button (utf8 "Descargar Transcripción") text
                      (id ++ u "_transcription.txt") (u "text/plain")).
  { revert Hin. rewrite !in_app_iff.
    destruct Hdl as [-> | ->]; destruct Htr as [-> | ->]; cbn;
      intuition (try discriminate; congruence). }
  injection Hbutton as -> -> -> ->.
  split; [reflexivity|]. split; [reflexivity|]. split.
  - rewrite !in_app_iff. right. right. right. right. right.
    right. left. reflexivity.
  - split; [exact Hmarker|]. exists id. repeat split.
    rewrite Edl. cbn [disk]. rewrite Etr. reflexivity.
Qed.

(** ** The working directory *)


(** [X11] When a regular file named [audios] is in the way, a run of
    [main] that has resolved an identifier ends with FileExistsError
    right after [os.makedirs], before any download, and leaves the disk
    as it was. *)
Theorem main_fails_when_audios_is_a_file (sv : Services) (page : widgets)
    (fs : filesystem) (video_id : ustr) :
  button page = true ->
  text_input page <> [] ->
  extract_video_id (text_input page) = Returned (Some video_id) ->
  video_id <> [] ->
  fs (u "audios") = Some File ->
  main sv page fs =
    {| value := Raised (FileExistsError (u "audios")); disk := fs;
       trace := page_header ++ id_shown video_id ++ [os_makedirs (u "audios")] |}.
Proof.
  intros Hb Hu Hid Hne Hfile.
  rewrite (main_with_id sv page fs video_id) by assumption.
  unfold download_audio, do_makedirs, makedirs. run_monad.
  rewrite Hfile. reflexivity.
Qed.

(* ================================================================== *)
(** * Concrete instances of the properties above *)
(* ================================================================== *)

Lemma pattern_id_is_url_segment_witness :
  extract_video_id (chars "https://youtu.be/abc123?t=5") = Returned (Some (u "abc123")) /\
  chars "abc123" <> [] /\ forallb id_char (chars "abc123") = true /\
  exists pre post, chars "https://youtu.be/abc123?t=5" = pre ++ chars "abc123" ++ post.
Proof.
  apply (pattern_id_is_url_segment (chars "https://youtu.be/abc123?t=5") (chars "abc123")).
  vm_compute. reflexivity.
Defined.

Lemma direct_shapes_round_trip_witness :
  extract_video_id (chars "https://www." ++ chars "youtube.com/embed/" ++
                    chars "abc123" ++ chars "?start=3")
  = Returned (Some (u "abc123")).
Proof.
  apply (direct_shapes_round_trip (chars "https://www.") (chars "youtube.com/embed/")
           (chars "abc123") (chars "?start=3")).
  - do 5 right. left. reflexivity.
  - right. left. reflexivity.
  - discriminate.
  - reflexivity.
  - right. exists "?"%char, (chars "start=3"). split; reflexivity.
Defined.

Lemma later_v_round_trip_witness :
  extract_video_id (chars "https://www." ++ chars "youtube.com/watch?" ++
                    chars "list=PL1&t=2" ++ chars "&v=" ++ chars "abc123" ++
                    chars "&index=4")
  = Returned (Some (u "abc123")).
Proof.
  apply (later_v_round_trip (chars "https://www.") (chars "list=PL1&t=2")
           (chars "abc123") (chars "&index=4")).
  - do 5 right. left. reflexivity.
  - repeat split; reflexivity.
  - discriminate.
  - reflexivity.
  - right. exists "&"%char, (chars "index=4"). split; reflexivity.
Defined.

Lemma extract_video_id_raises_only_ValueError_witness :
  first_match regex_patterns (chars "http://[::1") = None /\
  urlparse (chars "http://[::1") = Raised (ValueError "Invalid IPv6 URL") /\
  exn_class (ValueError "Invalid IPv6 URL") = "ValueError"%string.
Proof.
  apply (extract_video_id_raises_only_ValueError (chars "http://[::1")).
  vm_compute. reflexivity.
Defined.


Lemma audio_path_outside_only_for_query_id_witness :
  audio_path_of (u "/etc/x") = u "audios/" ++ u "/etc/x" ++ u ".mp3" \/
  (Str.startswith (u "/etc/x") (u "/") = true /\
   first_match regex_patterns (chars "https://www.youtube.com/watch?v=/etc/x") = None /\
   exists p, urlparse (chars "https://www.youtube.com/watch?v=/etc/x") = Returned p /\
             path p = chars "/watch" /\
             first_value (u "v") (parse_qsl (query p)) = Some (u "/etc/x")).
Proof.
  apply (audio_path_outside_only_for_query_id
           (chars "https://www.youtube.com/watch?v=/etc/x") (u "/etc/x")).
  vm_compute. reflexivity.
Defined.

Lemma main_raises_iff_witness :
  value (main (Fake.services Fake.ydl_raises (u "hola"))
              (Fake.submit "https://youtu.be/abc123") Fake.empty_disk)
  = Raised Fake.DownloadError.
Proof.
  apply (proj2 (main_raises_iff (Fake.services Fake.ydl_raises (u "hola"))
                  (Fake.submit "https://youtu.be/abc123") Fake.empty_disk
                  Fake.DownloadError)).
  split; [reflexivity|]. split; [discriminate|]. right.
  exists (u "abc123"). split; [vm_compute; reflexivity|].
  split; [discriminate | vm_compute; reflexivity].
Defined.

(** [https://www.youtube.com/embed/] resolves to the empty string. *)
Lemma main_reaches_acquisition_iff_witness :
  extract_video_id (chars "https://www.youtube.com/embed/") = Returned (Some []) /\
  disk (main (Fake.services Fake.ydl_writes (u "hola"))
             (Fake.submit "https://www.youtube.com/embed/") Fake.empty_disk)
    = Fake.empty_disk /\
  existsb is_outside_call
    (trace (main (Fake.services Fake.ydl_writes (u "hola"))
                 (Fake.submit "https://www.youtube.com/embed/") Fake.empty_disk))
    = false.
Proof.
  split; [vm_compute; reflexivity|].
  apply (proj2 (main_reaches_acquisition_iff
                  (Fake.services Fake.ydl_writes (u "hola"))
                  (Fake.submit "https://www.youtube.com/embed/") Fake.empty_disk)).
  intros [_ [_ [video_id [Hid Hne]]]].
  vm_compute in Hid. injection Hid as <-. contradiction.
Defined.

Lemma download_button_offers_shown_text_witness :
  value (main (Fake.services Fake.ydl_writes (u "hola"))
              (Fake.submit "https://youtu.be/abc123") Fake.empty_disk)
    = Returned tt /\
  u "text/plain" = u "text/plain" /\
  In (st_write (u "hola"))
     (trace (main (Fake.services Fake.ydl_writes (u "hola"))
                  (Fake.submit "https://youtu.be/abc123") Fake.empty_disk)) /\
  Str.contains transcription_error_marker (u "hola") = false /\
  exists video_id,
    extract_video_id (text_input (Fake.submit "https://youtu.be/abc123"))
      = Returned (Some video_id) /\
    u "abc123_transcription.txt" = video_id ++ u "_transcription.txt" /\
    value (transcribe_audio (Fake.services Fake.ydl_writes (u "hola"))
             (audio_path_of video_id)
             (model_str (model_select (Fake.submit "https://youtu.be/abc123")))
             (language_str (language_select (Fake.submit "https://youtu.be/abc123")))
             (disk (download_audio (Fake.services Fake.ydl_writes (u "hola"))
                      (text_input (Fake.submit "https://youtu.be/abc123"))
                      (u "audios") (video_id ++ u ".mp3") Fake.empty_disk)))
      = Returned (u "hola").
Proof.
  apply (download_button_offers_shown_text
           (Fake.services Fake.ydl_writes (u "hola"))
           (Fake.submit "https://youtu.be/abc123") Fake.empty_disk
           (utf8 "Descargar Transcripción") (u "hola")
           (u "abc123_transcription.txt") (u "text/plain")).
  vm_compute. do 14 right. left. reflexivity.
Defined.


Lemma main_fails_when_audios_is_a_file_witness :
  main (Fake.services Fake.ydl_writes (u "hola"))
       (Fake.submit "https://youtu.be/abc123")
       (fun p => if Str.equal p (u "audios") then Some File else None)
  = {| value := Raised (FileExistsError (u "audios"));
       disk := fun p => if Str.equal p (u "audios") then Some File else None;
       trace := page_header ++ id_shown (u "abc123") ++ [os_makedirs (u "audios")] |}.
Proof.
  apply (main_fails_when_audios_is_a_file
           (Fake.services Fake.ydl_writes (u "hola"))
           (Fake.submit "https://youtu.be/abc123")
           (fun p => if Str.equal p (u "audios") then Some File else None)
           (u "abc123")).
  - reflexivity.
  - discriminate.
  - vm_compute. reflexivity.
  - discriminate.
  - reflexivity.
Defined.
